(** * Expiry-risk inventory pipeline: driver and dashboard

    A shallow embedding of [run_pipeline.py] and [dashboard/app.py].
    Both scripts are straight-line drivers over stage functions that live
    in other modules and over the pandas / streamlit / plotly libraries.
    The drivers are embedded as programs of a small state-and-exception
    monad; the stage functions and the library calls are parameters. *)

From Stdlib Require Import String Ascii List ZArith QArith Lia.
From stdpp Require Import base option list gmap strings sets.

Open Scope string_scope.

(** ** Python values used by the drivers *)

(** A Python [str] is represented by its UTF-8 byte sequence, so a Rocq
    [string] (a list of 8-bit characters) stands for both [str] and the
    content of a file. *)

Definition nl : string := String "010"%char "".
Definition dq : string := String "034"%char "".

(** [s.encode('utf-8')] *)
Definition encode_utf8 (s : string) : list Byte.byte := list_byte_of_string s.
(** [b.decode('utf-8')] *)
Definition decode_utf8 (b : list Byte.byte) : string := string_of_list_byte b.

(** Exception classes. [except Exception] catches the subclasses of
    [Exception] only: [SystemExit], [KeyboardInterrupt] and [GeneratorExit]
    derive from [BaseException] directly and pass through it. *)
Inductive ExnClass :=
  | SystemExit
  | KeyboardInterrupt
  | GeneratorExit
  | ExceptionSub (name : string).

Definition isinstance_Exception (c : ExnClass) : bool :=
  match c with
  | ExceptionSub _ => true
  | _ => false
  end.

(** An exception object: its class and [str(e)]. *)
Record PyExn := { exn_class : ExnClass; exn_str : string }.

Definition FileNotFoundError (path : string) : PyExn :=
  {| exn_class := ExceptionSub "FileNotFoundError";
     exn_str := "[Errno 2] No such file or directory: '" ++ path ++ "'" |}.

Definition KeyError (key : string) : PyExn :=
  {| exn_class := ExceptionSub "KeyError"; exn_str := "'" ++ key ++ "'" |}.

Definition NameError (name : string) : PyExn :=
  {| exn_class := ExceptionSub "NameError";
     exn_str := "name '" ++ name ++ "' is not defined" |}.

(** ** Stages and the trace of a run *)

(** The five backend stages, under the names the drivers import. *)
Inductive Stage :=
  | data_preprocessing_main
  | predict_expiry_class
  | forecast_main
  | risk_main
  | run_recommendation_pipeline.

#[global] Instance Stage_eq_dec : EqDecision Stage.
Proof. solve_decision. Defined.

(** What a driver does that is visible from outside, in program order:
    a line printed to standard output, or a call of a stage with its
    argument (only preprocessing takes one, the path of the upload) and
    how the call ended: [None] when the stage returned, [Some e] when it
    raised [e]. *)
Inductive Event :=
  | Printed (line : string)
  | Called (s : Stage) (arg : option string) (raised : option PyExn).

Definition stage_of (e : Event) : option Stage :=
  match e with
  | Called s _ _ => Some s
  | Printed _ => None
  end.

(** The stages called, in order. *)
Definition calls_of (l : list Event) : list Stage := omap stage_of l.

(** The lines printed, in order. *)
Definition printed_of (l : list Event) : list string :=
  omap (fun e => match e with Printed s => Some s | _ => None end) l.

(** ** Tables *)

(** A cell of a dataframe: a value, kept as its text, or the missing
    value [NaN]. *)
Inductive Cell :=
  | Val (text : string)
  | NaN.

#[global] Instance Cell_eq_dec : EqDecision Cell.
Proof. solve_decision. Defined.

(** A [pandas.DataFrame]: the column labels and the rows, each row a list
    of cells in column order. *)
Record DataFrame := { df_columns : list string; df_rows : list (list Cell) }.

(** Position of a column label in [df.columns]. *)
Fixpoint column_index (c : string) (cols : list string) : option nat :=
  match cols with
  | [] => None
  | c' :: cols' =>
      if String.eqb c c' then Some 0 else S <$> column_index c cols'
  end.

(** [c in df.columns] *)
Definition has_column (c : string) (df : DataFrame) : bool :=
  bool_decide (c ∈ df_columns df).

(** The cells of column [i], a short row reading as [NaN]. *)
Definition column_cells (i : nat) (df : DataFrame) : list Cell :=
  map (fun r => nth i r NaN) (df_rows df).

(** [df.head(n)] *)
Definition head (n : nat) (df : DataFrame) : DataFrame :=
  {| df_columns := df_columns df; df_rows := firstn n (df_rows df) |}.

(** [series.unique()]: the distinct values in order of first appearance. *)
Fixpoint unique_from (seen : list Cell) (l : list Cell) : list Cell :=
  match l with
  | [] => []
  | x :: l' =>
      if bool_decide (x ∈ seen) then unique_from seen l'
      else x :: unique_from (x :: seen) l'
  end.
Definition unique (l : list Cell) : list Cell := unique_from [] l.

(** [df[df[col].isin(values)]] for the column at position [i]. *)
Definition filter_isin (i : nat) (values : list Cell) (df : DataFrame) : DataFrame :=
  {| df_columns := df_columns df;
     df_rows := List.filter (fun r => bool_decide (nth i r NaN ∈ values)) (df_rows df) |}.

(** [series.map({"High": "🟥", "Medium": "🟧", "Low": "🟩"})]: a value
    that is not a key of the dict maps to [NaN]. *)
Definition risk_level_emoji (c : Cell) : Cell :=
  match c with
  | Val "High" => Val "🟥"
  | Val "Medium" => Val "🟧"
  | Val "Low" => Val "🟩"
  | _ => NaN
  end.

(** [df[col] = df[col].map(f)] for the column at position [i]. *)
Definition map_column (i : nat) (f : Cell -> Cell) (df : DataFrame) : DataFrame :=
  {| df_columns := df_columns df;
     df_rows := map (fun r => alter f i r) (df_rows df) |}.

(** Aggregations and figures are not computed: a chart holds the pandas
    or plotly expression it was given, applied to its input. Whether
    evaluating the expression raises is a parameter of the library. The
    styling arguments of the plotly figures (colours, markers) are left
    out. *)
Inductive Query :=
  | value_counts (col : string)
  | groupby_sum (by_ col : string)
  | groupby_mean (by_ col : string)
  | sort_values_desc
  | nlargest (n : nat)
  | reset_index
  | set_index (col : string)
  | groupby_size_unstack (by1 by2 : string)
  | select_columns (cols : list string)
  | head_rows (n : nat)
  | px_pie (title : string)
  | px_line (x y title : string)
  | px_box (x y color : string).

Inductive Data :=
  | Frame (df : DataFrame)
  | Derived (q : Query) (d : Data).

(** ** The page *)

(** The streamlit calls of [app.py], as the elements they put on the page. *)
Inductive Widget :=
  | st_set_page_config (page_title layout : string)
  | st_markdown (body : string) (unsafe_allow_html : bool)
  | st_file_uploader (label : string) (type : list string)
  | st_success (body : string)
  | st_info (body : string)
  | st_warning (body : string)
  | st_error (body : string)
  | st_subheader (body : string)
  | st_bar_chart (d : Data)
  | st_line_chart (d : Data)
  | st_plotly_chart (d : Data)
  | st_dataframe (d : Data)
  | st_download_button (label : string) (data : list Byte.byte) (file_name mime : string)
  | st_sidebar_header (body : string)
  | st_sidebar_multiselect (label : string) (options default : list Cell)
  | st_columns (n : nat)
  | st_metric (column : nat) (label value : string)
  | st_write (label : string) (items : list string).

(** ** State and the driver monad *)

(** The files on disk (a flat map from path to content; directories are
    not modelled, so [os.makedirs] has nothing to do), the trace of the
    driver, and the page rendered so far. *)
Record World := {
  fs : gmap string string;
  log : list Event;
  page : list Widget
}.

Definition empty_world : World := {| fs := ∅; log := []; page := [] |}.

Inductive Res (A : Type) :=
  | Ok (a : A)
  | Raised (e : PyExn).
Arguments Ok {A} a.
Arguments Raised {A} e.

(** A statement: runs in a world and either returns or raises; the world
    it leaves behind holds everything done before the exception. *)
Definition M (A : Type) : Type := World -> Res A * World.

#[global] Instance M_ret : MRet M := fun A a w => (Ok a, w).
#[global] Instance M_bind : MBind M := fun A B f m w =>
  match m w with
  | (Ok a, w') => f a w'
  | (Raised e, w') => (Raised e, w')
  end.
#[global] Instance M_throw : MThrow PyExn M := fun A e w => (Raised e, w).

(** [try: body except Exception as e: handler(e)] *)
Definition try_except_Exception {A} (body : M A) (handler : PyExn -> M A) : M A :=
  fun w =>
    match body w with
    | (Ok a, w') => (Ok a, w')
    | (Raised e, w') =>
        if isinstance_Exception (exn_class e) then handler e w'
        else (Raised e, w')
    end.

(** [print(line)] *)
Definition print (line : string) : M unit := fun w =>
  (Ok tt, {| fs := fs w; log := log w ++ [Printed line]; page := page w |}).

(** A streamlit call: the element is appended to the page. *)
Definition render (x : Widget) : M unit := fun w =>
  (Ok tt, {| fs := fs w; log := log w; page := page w ++ [x] |}).

(** [os.path.exists(path)] *)
Definition os_path_exists (path : string) : M bool := fun w =>
  (Ok (bool_decide (is_Some (fs w !! path))), w).

(** ** The code outside the two drivers *)

(** The stage functions: a stage runs on the files, may change them, and
    returns or raises. *)
Class Backend := {
  stage_run : Stage -> option string -> gmap string string ->
              option PyExn * gmap string string
}.

(** The part of pandas and plotly the dashboard uses: parsing a CSV text
    ([pd.read_csv]), writing one ([df.to_csv(index=False)]), and whether
    an aggregation or figure expression raises on its input. *)
Class Pandas := {
  csv_parse : string -> PyExn + DataFrame;
  csv_render : DataFrame -> string;
  query_raises : Query -> Data -> option PyExn
}.

(** What the user does on the page: the file put in the uploader, if any,
    and the choice made in each sidebar multiselect given its options. *)
Record Session := {
  uploaded_file : option string;
  select_risk_levels : list Cell -> list Cell;
  select_actions : list Cell -> list Cell
}.

(** Calling a stage: the call is traced, the stage runs on the files, and
    an exception it raises is raised at the call. *)
Definition call {backend : Backend} (s : Stage) (arg : option string) : M unit := fun w =>
  let '(r, fs') := stage_run s arg (fs w) in
  let w' := {| fs := fs'; log := log w ++ [Called s arg r]; page := page w |} in
  match r with
  | None => (Ok tt, w')
  | Some e => (Raised e, w')
  end.

(** [pd.read_csv] on a text *)
Definition read_csv_text {pandas : Pandas} (text : string) : M DataFrame :=
  match csv_parse text with
  | inl e => mthrow e
  | inr df => mret df
  end.

(** Opening a file for reading: its content, [FileNotFoundError] when
    there is no file at the path. *)
Definition read_file (path : string) : M string := fun w =>
  match fs w !! path with
  | None => (Raised (FileNotFoundError path), w)
  | Some text => (Ok text, w)
  end.

(** [pd.read_csv(path)] *)
Definition pd_read_csv {pandas : Pandas} (path : string) : M DataFrame :=
  text ← read_file path; read_csv_text text.

(** [df.to_csv(path, index=False)] *)
Definition to_csv_file {pandas : Pandas} (df : DataFrame) (path : string) : M unit := fun w =>
  (Ok tt, {| fs := <[path := csv_render df]> (fs w); log := log w; page := page w |}).

(** Evaluating a pandas or plotly expression on its input. *)
Definition query {pandas : Pandas} (q : Query) (d : Data) : M Data :=
  match query_raises q d with
  | Some e => mthrow e
  | None => mret (Derived q d)
  end.

(** [df[col]]: the position of the column, [KeyError] when it is absent. *)
Definition getitem (df : DataFrame) (col : string) : M nat :=
  match column_index col (df_columns df) with
  | Some i => mret i
  | None => mthrow (KeyError col)
  end.

(** * run_pipeline.py *)

Module RunPipeline.
Section driver.
Context {backend : Backend}.

Definition step1 : string := "🔧 Step 1: Data Preprocessing".
Definition step2 : string := nl ++ "🧠 Step 2: Predicting Expiry Class (using saved model)".
Definition step3 : string := nl ++ "📈 Step 3: Forecasting (using saved / skip if exists)".
Definition step4 : string := nl ++ "⚖️ Step 4: Risk Scoring".
Definition step5 : string := nl ++ "🎯 Step 5: Recommendation Engine".
Definition completed : string :=
  nl ++ "✅ Pipeline completed successfully. Output: data/external/recommendations.csv".
Definition skipped (e : PyExn) : string := "⚠️ Forecast step skipped: " ++ exn_str e.
Definition usage : string := "❌ Please provide the uploaded CSV path.".

Definition run_pipeline (uploaded_file_path : string) : M unit :=
  print step1;;
  call data_preprocessing_main (Some uploaded_file_path);;
  print step2;;
  call predict_expiry_class None;;
  print step3;;
  try_except_Exception (call forecast_main None) (fun e => print (skipped e));;
  print step4;;
  call risk_main None;;
  print step5;;
  call run_recommendation_pipeline None;;
  print completed.

(** The [__main__] block, on [sys.argv]. *)
Definition main (argv : list string) : M unit :=
  if (List.length argv <? 2)%nat then print usage
  else
    match argv !! 1 with
    | Some path => run_pipeline path
    | None => mret tt
    end.
End driver.
End RunPipeline.

(** * dashboard/app.py *)

Module App.
Section script.
Context {backend : Backend} {pandas : Pandas}.

Definition styles : string :=
  "
    <style>
    .css-18e3th9 {
        padding: 2rem;
        background-color: #f9f9f9;
        border-radius: 10px;
        box-shadow: 0px 4px 6px rgba(0, 0, 0, 0.1);
    }
    .css-1d391kg {
        background-color: #ffffff;
        border: 1px solid #e6e6e6;
        border-radius: 10px;
        padding: 1rem;
    }
    .stButton > button {
        background-color: #4CAF50;
        color: white;
        border: none;
        border-radius: 5px;
        padding: 0.5rem 1rem;
        font-size: 16px;
        cursor: pointer;
    }
    .stButton > button:hover {
        background-color: #45a049;
    }
    .stDownloadButton > button {
        background-color: #007BFF;
        color: white;
        border: none;
        border-radius: 5px;
        padding: 0.5rem 1rem;
        font-size: 16px;
        cursor: pointer;
    }
    .stDownloadButton > button:hover {
        background-color: #0056b3;
    }
    </style>
    ".

Definition title : string :=
  "
    <h1 style=" ++ dq ++ "text-align: center; color: #333333;" ++ dq ++ ">
        📊 Inventory Insights Dashboard
    </h1>
    ".

Definition intro : string :=
  "
Upload your inventory CSV to get actionable insights including expiry predictions, risk levels, and recommendations.
".

Definition uploaded_file_path : string := "data/raw/uploaded_inventory.csv".
Definition risk_file : string := "data/external/risk_scores.csv".
Definition rec_file : string := "data/external/recommendations.csv".
Definition forecast_file : string := "forecasts/product_level/all_products_forecast.csv".

(** [d.head(n)]: never raises. *)
Definition head_data (n : nat) (d : Data) : Data :=
  match d with
  | Frame df => Frame (head n df)
  | Derived _ _ => Derived (head_rows n) d
  end.

(** Lines 21-83: page configuration, styling, title and the uploader. *)
Definition page_top : M unit :=
  render (st_set_page_config "Inventory Insights Dashboard" "wide");;
  render (st_markdown styles true);;
  render (st_markdown title true);;
  render (st_markdown intro false);;
  render (st_file_uploader "Upload Inventory CSV" ["csv"]).

(** Lines 94-98: the stages as the dashboard calls them. *)
Definition run_backend_pipeline : M unit :=
  call data_preprocessing_main (Some uploaded_file_path);;
  call forecast_main None;;
  call risk_main None;;
  call run_recommendation_pipeline None.

(** Lines 101-103. *)
Definition risk_levels_section : M unit :=
  render (st_subheader "⚖️ Risk Levels");;
  risk_df ← pd_read_csv risk_file;
  _ ← getitem risk_df "Risk_Level";
  counts ← query (value_counts "Risk_Level") (Frame risk_df);
  render (st_bar_chart counts).

(** Lines 109-136: what is shown of the table read from the
    recommendations file. *)
Definition show_recommendations (rec_df : DataFrame) : M unit :=
  render (st_dataframe (Frame (head 10 rec_df)));;
  render (st_download_button "Download Recommendations CSV"
            (encode_utf8 (csv_render rec_df)) "recommendations.csv" "text/csv");;
  render (st_subheader "📊 Insights from Recommendations");;
  render (st_subheader "Top 10 Products with Highest Stock Quantity");;
  sums ← query (groupby_sum "Product_Name" "Stock_Quantity") (Frame rec_df);
  largest ← query (nlargest 10) sums;
  top_demand_products ← query reset_index largest;
  indexed ← query (set_index "Product_Name") top_demand_products;
  render (st_bar_chart indexed);;
  render (st_subheader "Action Distribution by Risk Level");;
  action_risk_distribution ←
    query (groupby_size_unstack "Risk_Level" "Predicted_Action") (Frame rec_df);
  render (st_dataframe action_risk_distribution);;
  (if has_column "Predicted_Discount_Percent" rec_df && has_column "Category" rec_df
   then
     render (st_subheader "Average Discount by Product Category");;
     means ← query (groupby_mean "Category" "Predicted_Discount_Percent") (Frame rec_df);
     avg_discount_category ← query sort_values_desc means;
     render (st_bar_chart avg_discount_category)
   else mret tt).

(** Lines 105-138. The result is the binding of the script variable
    [rec_df] after the block: the table read, or no binding at all when
    the [else] branch ran. *)
Definition recommendations_section : M (option DataFrame) :=
  render (st_subheader "🎯 Recommendations");;
  found ← os_path_exists rec_file;
  if (found : bool) then
    rec_df ← pd_read_csv rec_file;
    show_recommendations rec_df;;
    mret (Some rec_df)
  else
    render (st_warning "⚠️ Recommendations file not found.");;
    mret None.

(** Lines 140-203. [rec_df0] is the binding of [rec_df] on entry; the
    block rebinds it when the file exists. *)
Definition enhanced_section (session : Session) (rec_df0 : option DataFrame)
  : M (option DataFrame) :=
  render (st_subheader "📊 Enhanced Insights and Filters");;
  found ← os_path_exists rec_file;
  if (found : bool) then
    rec_df ← pd_read_csv rec_file;
    render (st_sidebar_header "Filter Options");;
    i ← getitem rec_df "Risk_Level";
    let risk_levels := unique (column_cells i rec_df) in
    render (st_sidebar_multiselect "Select Risk Levels" risk_levels risk_levels);;
    let selected_risk_levels := select_risk_levels session risk_levels in
    i ← getitem rec_df "Risk_Level";
    let filtered_df := filter_isin i selected_risk_levels rec_df in
    j ← getitem rec_df "Predicted_Action";
    let actions := unique (column_cells j rec_df) in
    render (st_sidebar_multiselect "Select Actions" actions actions);;
    let selected_actions := select_actions session actions in
    j ← getitem filtered_df "Predicted_Action";
    let filtered_df := filter_isin j selected_actions filtered_df in
    render (st_dataframe (Frame (head 20 filtered_df)));;
    render (st_subheader "Stock Quantity by Risk Level");;
    stock_by_risk ← query (groupby_sum "Risk_Level" "Stock_Quantity") (Frame filtered_df);
    render (st_bar_chart stock_by_risk);;
    (if has_column "Predicted_Discount_Percent" filtered_df then
       render (st_subheader "Average Discount by Risk Level");;
       avg_discount_risk ←
         query (groupby_mean "Risk_Level" "Predicted_Discount_Percent") (Frame filtered_df);
       render (st_bar_chart avg_discount_risk)
     else mret tt);;
    render (st_subheader "Top Products by Stock Quantity");;
    sums ← query (groupby_sum "Product_Name" "Stock_Quantity") (Frame filtered_df);
    largest ← query (nlargest 10) sums;
    top_products ← query reset_index largest;
    render (st_dataframe top_products);;
    render (st_subheader "📊 Enhanced Visualizations");;
    render (st_subheader "Risk Level Distribution");;
    _ ← getitem rec_df "Risk_Level";
    risk_level_counts ← query (value_counts "Risk_Level") (Frame rec_df);
    pie ← query (px_pie "Risk Level Distribution") risk_level_counts;
    render (st_plotly_chart pie);;
    render (st_subheader "Stock Quantity Over Risk Levels");;
    sums ← query (groupby_sum "Risk_Level" "Stock_Quantity") (Frame rec_df);
    stock_by_risk ← query reset_index sums;
    line ← query (px_line "Risk_Level" "Stock_Quantity" "Stock Quantity by Risk Level")
             stock_by_risk;
    render (st_plotly_chart line);;
    mret (Some rec_df)
  else mret rec_df0.

(** Lines 205-213. *)
Definition key_metrics : M unit :=
  render (st_markdown "<h2 style='text-align: center;'>Key Metrics</h2>" true);;
  render (st_columns 3);;
  render (st_metric 1 "Total Products" "1,000");;
  render (st_metric 2 "Expired Items" "50");;
  render (st_metric 3 "Near-Expiry Items" "200").

(** Lines 215-221. The result is [uploaded_df] after the block, which
    overwrites its Risk_Level column in place. *)
Definition predictive_section (session : Session) (uploaded_df : DataFrame)
  : M DataFrame :=
  render (st_markdown "<h2 style='text-align: center;'>Predictive Insights</h2>" true);;
  if bool_decide (is_Some (uploaded_file session)) then
    render (st_subheader "Expiry Prediction Table");;
    uploaded_df ←
      (if has_column "Risk_Level" uploaded_df then
         i ← getitem uploaded_df "Risk_Level";
         mret (map_column i risk_level_emoji uploaded_df)
       else mret uploaded_df);
    render (st_dataframe (Frame (head 10 uploaded_df)));;
    mret uploaded_df
  else mret uploaded_df.

(** Lines 223-234. *)
Definition forecast_section : M unit :=
  render (st_markdown "<h2 style='text-align: center;'>Forecasting & Trend Analysis</h2>" true);;
  forecast_df ← pd_read_csv forecast_file;
  render (st_write "Forecast DataFrame Columns:" (df_columns forecast_df));;
  if has_column "Date" forecast_df then
    indexed ← query (set_index "Date") (Frame forecast_df);
    render (st_line_chart indexed)
  else
    render (st_error "The 'Date' column is missing in the forecast data. Please check the CSV file.").

(** Lines 236-245. *)
Definition risk_scoring_section (uploaded_df : DataFrame) : M unit :=
  render (st_markdown "<h2 style='text-align: center;'>Risk Scoring Insights</h2>" true);;
  render (st_write "Uploaded DataFrame Columns:" (df_columns uploaded_df));;
  if has_column "Risk_Score" uploaded_df then
    box ← query (px_box "Category" "Risk_Score" "Risk_Level") (Frame uploaded_df);
    render (st_plotly_chart box)
  else
    render (st_error "The 'Risk_Score' column is missing in the uploaded data. Please check the data or preprocessing pipeline.").

(** Lines 247-252. [rec_df] is read whether or not a branch above bound
    it: an unbound name raises [NameError]. *)
Definition optimization_section (rec_df : option DataFrame) : M unit :=
  render (st_markdown "<h2 style='text-align: center;'>Optimization & Recommendations</h2>" true);;
  match rec_df with
  | None => mthrow (NameError "rec_df")
  | Some rec_df =>
      if has_column "Predicted_Discount_Percent" rec_df then
        selected ← query (select_columns
                            ["Product_Name"; "Predicted_Action"; "Predicted_Discount_Percent"])
                         (Frame rec_df);
        render (st_dataframe (head_data 10 selected))
      else
        selected ← query (select_columns ["Product_Name"; "Predicted_Action"]) (Frame rec_df);
        render (st_dataframe (head_data 10 selected))
  end.

(** Line 255. *)
Definition footer : M unit :=
  render (st_markdown "<footer style='text-align: center;'>Version 1.0 | Last Updated: October 8, 2025</footer>" true).

(** Lines 100-203: everything rendered between the pipeline and the
    Key Metrics cards. The result is the binding of [rec_df]. *)
Definition results (session : Session) : M (option DataFrame) :=
  risk_levels_section;;
  rec_df ← recommendations_section;
  enhanced_section session rec_df.

(** Lines 215-255: everything rendered after the Key Metrics cards. *)
Definition insights (session : Session) (uploaded_df : DataFrame)
    (rec_df : option DataFrame) : M unit :=
  uploaded_df ← predictive_section session uploaded_df;
  forecast_section;;
  risk_scoring_section uploaded_df;;
  optimization_section rec_df;;
  footer.

(** Lines 86-98: the upload is parsed, saved under the fixed path, and
    the stages are run on it. The result is [uploaded_df]. *)
Definition ingest_and_run (content : string) : M DataFrame :=
  render (st_success "✅ File uploaded successfully!");;
  uploaded_df ← read_csv_text content;
  to_csv_file uploaded_df uploaded_file_path;;
  run_backend_pipeline;;
  mret uploaded_df.

(** Lines 85-257: the body of [if uploaded_file:] and its [else]. *)
Definition on_upload (session : Session) : M unit :=
  match uploaded_file session with
  | Some content =>
      uploaded_df ← ingest_and_run content;
      rec_df ← results session;
      key_metrics;;
      insights session uploaded_df rec_df
  | None => render (st_info "Please upload a CSV file to get started.")
  end.

(** One execution of the script, which streamlit runs top to bottom on
    every interaction. *)
Definition app (session : Session) : M unit :=
  page_top;;
  on_upload session.
End script.
End App.

(** * The stages, as the specification describes them

    The stage modules ([src/data_preprocessing], [src/expiry_prediction],
    [src/forecasting], [src/risk_scoring], [src/recommendations]) are not
    among the sources. Where a property is about what a stage computes,
    the stage is modelled from the specification. *)

Module RiskScoring.
Inductive RiskLevel := Low | Medium | High.

#[global] Instance RiskLevel_eq_dec : EqDecision RiskLevel.
Proof. solve_decision. Defined.

(** The order Low < Medium < High. *)
Definition rank (l : RiskLevel) : nat :=
  match l with
  | Low => 0
  | Medium => 1
  | High => 2
  end.

(** The two fixed cut points; the specification does not give their
    values. *)
Record Thresholds := { medium_from : Q; high_from : Q }.

(** Modelled from the spec: the risk scorer is missing from the sources.
    "Risk_Level is a small ordered categorical {Low, Medium, High}
      derived from Risk_Score via fixed thresholds." *)
Definition risk_level (t : Thresholds) (score : Q) : RiskLevel :=
  if Qle_bool (high_from t) score then High
  else if Qle_bool (medium_from t) score then Medium
  else Low.

(** RiskRecord: (product, Risk_Score, Risk_Level). *)
Record RiskRecord := {
  product : string;
  Risk_Score : Q;
  Risk_Level : RiskLevel
}.

(** Modelled from the spec: the risk table the scorer writes, one record
    per scored product, its level derived from its score. *)
Definition risk_table (t : Thresholds) (scored : list (string * Q)) : list RiskRecord :=
  map (fun ps => {| product := ps.1; Risk_Score := ps.2;
                    Risk_Level := risk_level t ps.2 |}) scored.
End RiskScoring.

Module Recommend.
Import RiskScoring.

(** ForecastPoint: (product, date, predicted quantity). *)
Record ForecastPoint := {
  fp_product : string;
  fp_date : string;
  predicted_quantity : Q
}.

(** Recommendation: (product, Predicted_Action, Predicted_Discount_Percent). *)
Record Recommendation := {
  rec_product : string;
  Predicted_Action : string;
  Predicted_Discount_Percent : Q
}.

(** The forecast points of one product. *)
Definition forecast_of (p : string) (forecast : list ForecastPoint) : list ForecastPoint :=
  List.filter (fun pt => bool_decide (fp_product pt = p)) forecast.

(** Modelled from the spec: the recommender is missing from the sources.
    A recommendation is "derived from RiskRecord + ForecastPoint joined
      by product identifier": a risk record that has forecast points for
    its product gives one recommendation for that product. How the
    action and the discount are chosen is the parameter [policy]. *)
Definition recommend (policy : RiskRecord -> list ForecastPoint -> string * Q)
    (risk : list RiskRecord) (forecast : list ForecastPoint) : list Recommendation :=
  omap (fun r =>
          match forecast_of (product r) forecast with
          | [] => None
          | pts =>
              Some {| rec_product := product r;
                      Predicted_Action := (policy r pts).1;
                      Predicted_Discount_Percent := (policy r pts).2 |}
          end) risk.

(** The product identifiers appearing in each table. *)
Definition risk_products (risk : list RiskRecord) : gset string :=
  list_to_set (map product risk).
Definition recommended_products (recs : list Recommendation) : gset string :=
  list_to_set (map rec_product recs).
End Recommend.

Module SpecStages.
(** The column-wise transform or model inference of each stage, on the
    text of its input file; a transform may fail. *)
Record Transforms := {
  processed_file : string;
  preprocess : string -> PyExn + string;
  classify : string -> PyExn + string;
  forecast : string -> PyExn + string;
  score : string -> PyExn + string;
  recommend : string -> string -> PyExn + string
}.

(** Read the file at [input], transform, write the file at [output]. *)
Definition file_stage (input : string) (f : string -> PyExn + string) (output : string)
    (files : gmap string string) : option PyExn * gmap string string :=
  match files !! input with
  | None => (Some (FileNotFoundError input), files)
  | Some text =>
      match f text with
      | inl e => (Some e, files)
      | inr out => (None, <[output := out]> files)
      end
  end.

Definition TypeError (msg : string) : PyExn :=
  {| exn_class := ExceptionSub "TypeError"; exn_str := msg |}.

(** Modelled from the spec: the stage functions are missing from the
    sources. "Each stage's contract is: read CSV at fixed path,
      deterministic column-wise transform (or model inference), write CSV
      at fixed path"; "each stage reads the prior stage's output file and
      writes its own"; outputs are fully overwritten. Preprocessing reads
    the upload and writes the processed file; the classifier adds its
    label to the processed file; the forecaster and the risk scorer read
    the processed file; the recommender reads the risk and forecast
    files. *)
Definition file_backend (t : Transforms) : Backend := {|
  stage_run s arg files :=
    match s with
    | data_preprocessing_main =>
        match arg with
        | Some path => file_stage path (preprocess t) (processed_file t) files
        | None => (Some (TypeError "main() missing 1 required positional argument"), files)
        end
    | predict_expiry_class =>
        file_stage (processed_file t) (classify t) (processed_file t) files
    | forecast_main =>
        file_stage (processed_file t) (forecast t) App.forecast_file files
    | risk_main =>
        file_stage (processed_file t) (score t) App.risk_file files
    | run_recommendation_pipeline =>
        match files !! App.forecast_file with
        | None => (Some (FileNotFoundError App.forecast_file), files)
        | Some fc => file_stage App.risk_file (fun r => recommend t r fc) App.rec_file files
        end
    end
|}.
End SpecStages.

(** * Vocabulary of the properties *)

(** The five stages in pipeline order. *)
Definition five_stages : list Stage :=
  [data_preprocessing_main; predict_expiry_class; forecast_main; risk_main;
   run_recommendation_pipeline].

(** The progress line [run_pipeline] prints for a stage. *)
Definition progress_line (s : Stage) : string :=
  match s with
  | data_preprocessing_main => RunPipeline.step1
  | predict_expiry_class => RunPipeline.step2
  | forecast_main => RunPipeline.step3
  | risk_main => RunPipeline.step4
  | run_recommendation_pipeline => RunPipeline.step5
  end.

(** Every stage call of the trace comes directly after the progress line
    of its stage; [prev] is the event before the trace. *)
Fixpoint announced (prev : option Event) (l : list Event) : Prop :=
  match l with
  | [] => True
  | ev :: l' =>
      match ev with
      | Called s _ _ => prev = Some (Printed (progress_line s))
      | Printed _ => True
      end ∧ announced (Some ev) l'
  end.

(** The Key Metrics cards on a page, as (label, value), in page order. *)
Definition metrics_of (p : list Widget) : list (string * string) :=
  omap (fun x => match x with
                 | st_metric _ label value => Some (label, value)
                 | _ => None
                 end) p.

(** The payloads of the download buttons on a page. *)
Definition downloads_of (p : list Widget) : list (list Byte.byte) :=
  omap (fun x => match x with
                 | st_download_button _ data _ _ => Some data
                 | _ => None
                 end) p.

(** The stages as the dashboard calls them. *)
Definition dashboard_stages : list Stage :=
  [data_preprocessing_main; forecast_main; risk_main; run_recommendation_pipeline].

(** The three cards of the Key Metrics block. *)
Definition key_metric_values : list (string * string) :=
  [("Total Products", "1,000"); ("Expired Items", "50"); ("Near-Expiry Items", "200")].

(** What lines 21-83 put on the page. *)
Definition page_top_elements : list Widget :=
  [st_set_page_config "Inventory Insights Dashboard" "wide";
   st_markdown App.styles true;
   st_markdown App.title true;
   st_markdown App.intro false;
   st_file_uploader "Upload Inventory CSV" ["csv"]].

(** What lines 205-213 put on the page. *)
Definition key_metric_elements : list Widget :=
  [st_markdown "<h2 style='text-align: center;'>Key Metrics</h2>" true;
   st_columns 3;
   st_metric 1 "Total Products" "1,000";
   st_metric 2 "Expired Items" "50";
   st_metric 3 "Near-Expiry Items" "200"].

(** An element that is neither a metric card nor a download button. *)
Definition plain (x : Widget) : Prop :=
  metrics_of [x] = [] ∧ downloads_of [x] = [].

(** An element that is not a metric card. *)
Definition no_metric (x : Widget) : Prop := metrics_of [x] = [].

(** An element that is not a download button. *)
Definition no_download (x : Widget) : Prop := downloads_of [x] = [].

(** [uploaded_df] as the Expiry Prediction Table shows it: the levels
    of a Risk_Level column replaced by coloured squares. *)
Definition predictive_table (uploaded_df : DataFrame) : DataFrame :=
  match column_index "Risk_Level" (df_columns uploaded_df) with
  | Some i => map_column i risk_level_emoji uploaded_df
  | None => uploaded_df
  end.

(** A statement that only renders: it leaves the files and the trace as
    they are, and every element it puts on the page satisfies [P]. *)
Definition renders_only (P : Widget → Prop) {A} (m : M A) : Prop :=
  ∀ w r w', m w = (r, w') →
    fs w' = fs w ∧ log w' = log w ∧ ∃ l, page w' = (page w ++ l)%list ∧ Forall P l.

(** The world [w] with [l] added to the page. *)
Definition rendered (w : World) (l : list Widget) : World :=
  {| fs := fs w; log := log w; page := (page w ++ l)%list |}.

(** The world in which the dashboard calls the stages: the upload
    message is on the page and the parsed upload has been written back
    under the fixed path. *)
Definition with_saved_upload (uploaded_df : DataFrame) {pandas : Pandas} (w : World) : World :=
  {| fs := <[App.uploaded_file_path := csv_render uploaded_df]> (fs w);
     log := log w;
     page := (page w ++ [st_success "✅ File uploaded successfully!"])%list |}.

(** The footer of the page. *)
Definition footer_element : Widget :=
  st_markdown "<footer style='text-align: center;'>Version 1.0 | Last Updated: October 8, 2025</footer>" true.

(** * Small concrete instances, for running the drivers *)

Module Demo.
(** [s.split(sep)] *)
Fixpoint split_on (sep : ascii) (s : string) : list string :=
  match s with
  | EmptyString => [EmptyString]
  | String c s' =>
      if Ascii.eqb c sep then EmptyString :: split_on sep s'
      else
        match split_on sep s' with
        | h :: t => String c h :: t
        | [] => [String c EmptyString]
        end
  end.

Definition cell_of (s : string) : Cell :=
  match s with
  | EmptyString => NaN
  | _ => Val s
  end.

Definition text_of (c : Cell) : string :=
  match c with
  | Val s => s
  | NaN => EmptyString
  end.

Definition line_of (fields : list string) : string := String.concat "," fields ++ nl.

Definition EmptyDataError : PyExn :=
  {| exn_class := ExceptionSub "EmptyDataError";
     exn_str := "No columns to parse from file" |}.

(** A plain CSV reader and writer: comma-separated fields, one record
    per line, no quoting; every query succeeds. *)
#[local] Instance plain_csv : Pandas := {|
  csv_parse text :=
    match List.filter (fun l => negb (String.eqb l EmptyString)) (split_on "010" text) with
    | [] => inl EmptyDataError
    | header :: records =>
        inr {| df_columns := split_on "," header;
               df_rows := map (fun l => map cell_of (split_on "," l)) records |}
    end;
  csv_render df :=
    line_of (df_columns df) ++ String.concat EmptyString (map (fun r => line_of (map text_of r)) (df_rows df));
  query_raises _ _ := None
|}.

Definition inventory_csv : string :=
  "Product_Name,Category,Stock_Quantity" ++ nl ++
  "Milk,Dairy,12" ++ nl ++
  "Rice,Grains,40" ++ nl.

Definition forecast_csv : string :=
  "Date,Milk,Rice" ++ nl ++ "2025-10-09,3,5" ++ nl.

Definition forecast_csv_undated : string :=
  "Day,Milk,Rice" ++ nl ++ "1,3,5" ++ nl.

Definition risk_csv : string :=
  "Product_Name,Risk_Score,Risk_Level" ++ nl ++
  "Milk,0.9,High" ++ nl ++
  "Rice,0.1,Low" ++ nl.

Definition recommendations_csv : string :=
  "Product_Name,Category,Stock_Quantity,Risk_Level,Predicted_Action,Predicted_Discount_Percent" ++ nl ++
  "Milk,Dairy,12,High,Discount,30" ++ nl ++
  "Rice,Grains,40,Low,Hold,0" ++ nl.

Definition ConvergenceError : PyExn :=
  {| exn_class := ExceptionSub "ValueError"; exn_str := "model did not converge" |}.

(** Stages that write fixed tables. *)
Definition fixed_tables : SpecStages.Transforms := {|
  SpecStages.processed_file := "data/processed/processed_data.csv";
  SpecStages.preprocess text := inr text;
  SpecStages.classify text := inr text;
  SpecStages.forecast _ := inr forecast_csv;
  SpecStages.score _ := inr risk_csv;
  SpecStages.recommend _ _ := inr recommendations_csv
|}.

(** The same, with a forecaster that fails. *)
Definition failing_forecast : SpecStages.Transforms := {|
  SpecStages.processed_file := "data/processed/processed_data.csv";
  SpecStages.preprocess text := inr text;
  SpecStages.classify text := inr text;
  SpecStages.forecast _ := inl ConvergenceError;
  SpecStages.score _ := inr risk_csv;
  SpecStages.recommend _ _ := inr recommendations_csv
|}.

(** The same, with a risk scorer that fails. *)
Definition failing_risk : SpecStages.Transforms := {|
  SpecStages.processed_file := "data/processed/processed_data.csv";
  SpecStages.preprocess text := inr text;
  SpecStages.classify text := inr text;
  SpecStages.forecast _ := inr forecast_csv;
  SpecStages.score _ := inl ConvergenceError;
  SpecStages.recommend _ _ := inr recommendations_csv
|}.

(** Stages that return without writing anything. *)
Definition idle : Backend := {| stage_run _ _ files := (None, files) |}.

(** The same, except that stage [s0] raises [e]. *)
Definition raising (s0 : Stage) (e : PyExn) : Backend := {|
  stage_run s _ files := (if bool_decide (s = s0) then Some e else None, files)
|}.

(** Stages of which only the given ones write their output file. *)
Definition writing (forecast_text risk_text rec_text : option string) : Backend := {|
  stage_run s _ files :=
    let put path text :=
      match text with
      | Some t => <[path := t]> files
      | None => files
      end in
    match s with
    | forecast_main => (None, put App.forecast_file forecast_text)
    | risk_main => (None, put App.risk_file risk_text)
    | run_recommendation_pipeline => (None, put App.rec_file rec_text)
    | _ => (None, files)
    end
|}.

Definition upload (content : string) : Session := {|
  uploaded_file := Some content;
  select_risk_levels options := options;
  select_actions options := options
|}.

Definition no_upload : Session := {|
  uploaded_file := None;
  select_risk_levels options := options;
  select_actions options := options
|}.

(** A disk that holds the upload of the command line run. *)
Definition disk : World :=
  {| fs := {[ "upload.csv" := inventory_csv ]}; log := []; page := [] |}.

(** An upload that already carries scores and levels, one of them a
    level the dashboard has no square for. *)
Definition scored_csv : string :=
  "Product_Name,Category,Risk_Score,Risk_Level" ++ nl ++
  "Milk,Dairy,0.9,High" ++ nl ++
  "Rice,Grains,0.5,Critical" ++ nl.

Definition scored_df : DataFrame :=
  {| df_columns := ["Product_Name"; "Category"; "Risk_Score"; "Risk_Level"];
     df_rows := [[Val "Milk"; Val "Dairy"; Val "0.9"; Val "High"];
                 [Val "Rice"; Val "Grains"; Val "0.5"; Val "Critical"]] |}.

Definition inventory_df : DataFrame :=
  {| df_columns := ["Product_Name"; "Category"; "Stock_Quantity"];
     df_rows := [[Val "Milk"; Val "Dairy"; Val "12"];
                 [Val "Rice"; Val "Grains"; Val "40"]] |}.

Definition recommendations_df : DataFrame :=
  {| df_columns := ["Product_Name"; "Category"; "Stock_Quantity"; "Risk_Level";
                    "Predicted_Action"; "Predicted_Discount_Percent"];
     df_rows := [[Val "Milk"; Val "Dairy"; Val "12"; Val "High"; Val "Discount"; Val "30"];
                 [Val "Rice"; Val "Grains"; Val "40"; Val "Low"; Val "Hold"; Val "0"]] |}.

(** A disk on which the stages have left their three files. *)
Definition staged_disk : World :=
  {| fs := {[ App.risk_file := risk_csv; App.rec_file := recommendations_csv;
              App.forecast_file := forecast_csv ]};
     log := []; page := [] |}.
End Demo.

(** * Properties *)

Local Open Scope list_scope.

(** ** Running statements *)

Lemma run_bind {A B} (m : M A) (f : A -> M B) (w : World) :
  (m ≫= f) w = match m w with
               | (Ok a, w') => f a w'
               | (Raised e, w') => (Raised e, w')
               end.
Proof. reflexivity. Qed.

(** Case analysis on the next stage call of a run. *)
Ltac run_stage H :=
  match type of H with
  | context [stage_run ?s ?a ?f] =>
      let e := fresh "e" in
      let f' := fresh "files" in
      let E := fresh "E" in
      destruct (stage_run s a f) as [[e|] f'] eqn:E;
      cbv beta iota zeta in H; cbn [fs log page] in H
  end.

(** Case analysis on membership in an explicit list of events. *)
Ltac elem_cases H :=
  repeat first
    [ apply elem_of_nil in H; destruct H
    | apply elem_of_cons in H; destruct H as [H|H];
      [ first [ discriminate H
              | injection H as -> -> ->
              | injection H as -> ->
              | injection H as ->
              | idtac ]
      | ] ].

(** Membership in an explicit list, by position. *)
Ltac find_elem :=
  first [ apply list_elem_of_here | apply list_elem_of_further; find_elem ].

Ltac unfold_driver :=
  cbv [RunPipeline.run_pipeline App.run_backend_pipeline call print
       try_except_Exception mbind M_bind mret M_ret];
  cbn [fs log page].

Section pipeline_properties.
Context {backend : Backend}.
Import RunPipeline.

(** X1. In a run of [run_pipeline], an exception raised by the forecasting
    stage is caught and logged (the "Forecast step skipped" line carries
    its text) and the run goes on to risk scoring and, when that returns,
    to recommendation. An exception raised by any other stage is the
    result of the run, and the failed call is the last thing the run did.
    ([except Exception] lets through the few exceptions that are not an
    [Exception], such as [SystemExit]: those abort the run from the
    forecasting stage as well.) *)
Lemma run_pipeline_failure_containment (path : string) (w w' : World) (r : Res unit) :
  run_pipeline path w = (r, w') →
  ∃ l, log w' = log w ++ l ∧
    (∀ e, Called forecast_main None (Some e) ∈ l →
          isinstance_Exception (exn_class e) = true →
          ∃ before raised after,
            l = before ++ [Called forecast_main None (Some e); Printed (skipped e);
                           Printed step4; Called risk_main None raised] ++ after ∧
            (raised = None →
             ∃ raised' after',
               after = [Printed step5;
                        Called run_recommendation_pipeline None raised'] ++ after')) ∧
    (∀ s arg e, s ≠ forecast_main → Called s arg (Some e) ∈ l →
                r = Raised e ∧ last l = Some (Called s arg (Some e))) ∧
    (∀ e, Called forecast_main None (Some e) ∈ l →
          isinstance_Exception (exn_class e) = false →
          r = Raised e ∧ last l = Some (Called forecast_main None (Some e))).
Proof.
  unfold_driver. intros Hrun.
  repeat run_stage Hrun.
  all: try (destruct (isinstance_Exception (exn_class _)) eqn:?; cbn [fs log page] in Hrun).
  all: repeat run_stage Hrun.
  all: inversion Hrun; subst; clear Hrun; cbn [fs log page].
  all: rewrite <- ?app_assoc; eexists; (split; [reflexivity|]).
  all: cbn [app].
  all: split; [|split].
  all: first
    [ intros s arg e' Hne Hin; elem_cases Hin; try congruence; split; reflexivity
    | intros e' Hin Hexn; elem_cases Hin; try congruence;
      first
        [ split; reflexivity
        | exists [Printed step1; Called data_preprocessing_main (Some path) None;
                  Printed step2; Called predict_expiry_class None None; Printed step3];
          do 2 eexists; (split; [reflexivity|]);
          intros Hnone; try discriminate Hnone; do 2 eexists; reflexivity ] ].
Qed.

(** C3. Given a path argument, the command line entry point runs
    [run_pipeline] on it. The stages it calls are always an initial part
    of the five stages in pipeline order, preprocessing with the path
    and the others without argument, and each call comes directly after
    the progress line of its stage. When no call fails, other than a
    forecasting failure that is caught, the run returns having called
    exactly the five stages. *)
Theorem main_calls_five_stages_in_order (argv : list string) (path : string)
    (w w' : World) (r : Res unit) :
  argv !! 1%nat = Some path →
  main argv w = (r, w') →
  ∃ l, log w' = log w ++ l ∧
    calls_of l `prefix_of` five_stages ∧
    announced None l ∧
    (∀ s arg raised, Called s arg raised ∈ l →
       arg = if bool_decide (s = data_preprocessing_main) then Some path else None) ∧
    ((∀ s arg e, Called s arg (Some e) ∈ l →
        s = forecast_main ∧ isinstance_Exception (exn_class e) = true) →
     r = Ok tt ∧ calls_of l = five_stages).
Proof.
  intros Hpath. unfold main.
  assert ((List.length argv <? 2)%nat = false) as ->.
  { apply Nat.ltb_ge. apply lookup_lt_Some in Hpath. lia. }
  rewrite Hpath. unfold_driver. intros Hrun.
  repeat run_stage Hrun.
  all: try (destruct (isinstance_Exception (exn_class _)) eqn:?; cbn [fs log page] in Hrun).
  all: repeat run_stage Hrun.
  all: inversion Hrun; subst; clear Hrun; cbn [fs log page].
  all: rewrite <- ?app_assoc; eexists; (split; [reflexivity|]).
  all: cbn [app].
  all: (split; [|split; [|split]]);
    [ cbn; unfold five_stages; solve [repeat first [apply prefix_cons | apply prefix_nil]]
        | cbn; intuition reflexivity
        | intros s arg raised Hin; elem_cases Hin; reflexivity
        | intros Hall; try (split; reflexivity) ].
  all: exfalso.
  all: match goal with
       | _ : isinstance_Exception (exn_class ?e) = false |- _ =>
           destruct (Hall forecast_main None e) as [_ ?]; [find_elem | congruence]
       | |- _ =>
           first
             [ edestruct (Hall data_preprocessing_main) as [? _]; [find_elem | discriminate]
             | edestruct (Hall predict_expiry_class) as [? _]; [find_elem | discriminate]
             | edestruct (Hall risk_main) as [? _]; [find_elem | discriminate]
             | edestruct (Hall run_recommendation_pipeline) as [? _];
               [find_elem | discriminate] ]
       end.
Qed.
End pipeline_properties.

(** ** Statements that only render *)

Section rendering.
Context {pandas : Pandas} (P : Widget → Prop).

Lemma renders_only_ret {A} (a : A) : renders_only P (mret a).
Proof.
  intros w r w' [= <- <-]. do 2 (split; [done|]). exists []. by rewrite app_nil_r.
Qed.

Lemma renders_only_throw {A} (e : PyExn) : renders_only P (mthrow (M:=M) (A:=A) e).
Proof.
  intros w r w' [= <- <-]. do 2 (split; [done|]). exists []. by rewrite app_nil_r.
Qed.

Lemma renders_only_bind {A B} (m : M A) (f : A → M B) :
  renders_only P m → (∀ a, renders_only P (f a)) → renders_only P (m ≫= f).
Proof.
  intros Hm Hf w r w'. rewrite run_bind.
  destruct (m w) as [[a|e] w1] eqn:E; destruct (Hm _ _ _ E) as (Hfs & Hlog & l1 & Hp & Hl1).
  - intros E2. destruct (Hf a _ _ _ E2) as (Hfs2 & Hlog2 & l2 & Hp2 & Hl2).
    split; [congruence|]. split; [congruence|].
    exists (l1 ++ l2). split; [by rewrite Hp2, Hp, app_assoc | by apply Forall_app].
  - intros [= <- <-]. eauto.
Qed.

Lemma renders_only_render (x : Widget) : P x → renders_only P (render x).
Proof.
  intros Hx w r w' [= <- <-]. cbn. do 2 (split; [done|]). exists [x]. auto.
Qed.

Lemma renders_only_exists (path : string) : renders_only P (os_path_exists path).
Proof.
  intros w r w' [= <- <-]. do 2 (split; [done|]). exists []. by rewrite app_nil_r.
Qed.

Lemma renders_only_read_file (path : string) : renders_only P (read_file path).
Proof.
  intros w r w'. unfold read_file. destruct (fs w !! path); intros [= <- <-];
    (do 2 (split; [done|])); exists []; by rewrite app_nil_r.
Qed.

Lemma renders_only_read_csv_text (text : string) : renders_only P (read_csv_text text).
Proof.
  unfold read_csv_text. destruct (csv_parse text);
    [apply renders_only_throw | apply renders_only_ret].
Qed.

Lemma renders_only_pd_read_csv (path : string) : renders_only P (pd_read_csv path).
Proof.
  apply renders_only_bind; [apply renders_only_read_file|].
  intros; apply renders_only_read_csv_text.
Qed.

Lemma renders_only_query (q : Query) (d : Data) : renders_only P (query q d).
Proof.
  unfold query. destruct (query_raises q d);
    [apply renders_only_throw | apply renders_only_ret].
Qed.

Lemma renders_only_getitem (df : DataFrame) (col : string) : renders_only P (getitem df col).
Proof.
  unfold getitem. destruct (column_index col (df_columns df));
    [apply renders_only_ret | apply renders_only_throw].
Qed.
End rendering.

Lemma renders_only_weaken (P Q : Widget → Prop) {A} (m : M A) :
  (∀ x, P x → Q x) → renders_only P m → renders_only Q m.
Proof.
  intros HPQ Hm w r w' E. destruct (Hm _ _ _ E) as (? & ? & l & ? & Hl).
  do 2 (split; [done|]). exists l. split; [done|]. eapply Forall_impl; eauto.
Qed.

Lemma renders_only_rendered (P : Widget → Prop) {A} (m : M A) (w w' : World) (r : Res A) :
  renders_only P m → m w = (r, w') → ∃ l, w' = rendered w l ∧ Forall P l.
Proof.
  intros Hm E. destruct (Hm _ _ _ E) as (Hfs & Hlog & l & Hp & Hl).
  exists l. split; [|done]. destruct w'; unfold rendered; cbn in *. by subst.
Qed.

Lemma rendered_rendered (w : World) (l1 l2 : list Widget) :
  rendered (rendered w l1) l2 = rendered w (l1 ++ l2).
Proof. unfold rendered; cbn. by rewrite app_assoc. Qed.

(** One rule of the above, chosen by the shape of the statement; the side
    condition of a rendered element is closed by computation. *)
Ltac renders_step :=
  first
    [ apply renders_only_ret
    | apply renders_only_throw
    | apply renders_only_exists
    | apply renders_only_pd_read_csv
    | apply renders_only_read_csv_text
    | apply renders_only_query
    | apply renders_only_getitem
    | apply renders_only_render; first [ reflexivity | exact I | done | (split; reflexivity) | (left; split; reflexivity) | (right; reflexivity) ]
    | apply renders_only_bind; [|intros ?]
    | match goal with
      | |- renders_only _ (if ?b then _ else _) => destruct b
      | |- renders_only _ (match ?o with Some _ => _ | None => _ end) => destruct o
      end
    | progress cbv zeta ].

Lemma metrics_of_app (l1 l2 : list Widget) :
  metrics_of (l1 ++ l2) = metrics_of l1 ++ metrics_of l2.
Proof. apply omap_app. Qed.

Lemma downloads_of_app (l1 l2 : list Widget) :
  downloads_of (l1 ++ l2) = downloads_of l1 ++ downloads_of l2.
Proof. apply omap_app. Qed.

Lemma plain_metrics (l : list Widget) : Forall plain l → metrics_of l = [].
Proof.
  induction 1 as [|x l [Hx _] _ IH]; [done|].
  change (x :: l) with ([x] ++ l). by rewrite metrics_of_app, Hx, IH.
Qed.

Lemma plain_downloads (l : list Widget) : Forall plain l → downloads_of l = [].
Proof.
  induction 1 as [|x l [_ Hx] _ IH]; [done|].
  change (x :: l) with ([x] ++ l). by rewrite downloads_of_app, Hx, IH.
Qed.

Lemma plain_no_download (l : list Widget) : Forall plain l → Forall no_download l.
Proof. intros Hl. eapply Forall_impl; [exact Hl|]. by intros x [_ ?]. Qed.

Lemma no_download_downloads (l : list Widget) : Forall no_download l → downloads_of l = [].
Proof.
  induction 1 as [|x l Hx _ IH]; [done|].
  change (x :: l) with ([x] ++ l). by rewrite downloads_of_app, Hx, IH.
Qed.

Lemma no_download_elem (l : list Widget) (x : Widget) :
  Forall no_download l → x ∈ l → downloads_of [x] = [].
Proof. intros Hl Hx. exact (proj1 (Forall_forall _ _) Hl x Hx). Qed.

(** Download buttons of a page whose ends have none: those of the middle. *)
Lemma downloads_frame (before shown after : list Widget) :
  Forall no_download before → Forall no_download after →
  downloads_of (before ++ shown ++ after) = downloads_of shown ∧
  (∀ x, downloads_of [x] ≠ [] → x ∈ before ++ shown ++ after → x ∈ shown).
Proof.
  intros Hb Ha. split.
  - rewrite !downloads_of_app, (no_download_downloads _ Hb), (no_download_downloads _ Ha).
    by rewrite app_nil_r.
  - intros x Hx. rewrite !elem_of_app. intros [Hin|[Hin|Hin]]; [|done|].
    + by apply (no_download_elem _ _ Hb) in Hin.
    + by apply (no_download_elem _ _ Ha) in Hin.
Qed.

Lemma decode_encode_utf8 (s : string) : decode_utf8 (encode_utf8 s) = s.
Proof. apply string_of_list_byte_of_string. Qed.

Lemma column_index_None (c : string) (cols : list string) :
  column_index c cols = None ↔ c ∉ cols.
Proof.
  induction cols as [|c' cols IH]; cbn.
  - split; [intros _; apply not_elem_of_nil | done].
  - rewrite not_elem_of_cons. destruct (String.eqb_spec c c') as [->|Hne].
    + split; [done | by intros [? _]].
    + destruct (column_index c cols); cbn; [|tauto].
      split; [done|]. intros [_ Hnot]. by apply IH in Hnot.
Qed.

Lemma has_column_index (c : string) (df : DataFrame) :
  has_column c df = true → is_Some (column_index c (df_columns df)).
Proof.
  unfold has_column. intros Hin%bool_decide_eq_true.
  destruct (column_index c (df_columns df)) eqn:E; [eauto|].
  by apply column_index_None in E.
Qed.

Section dashboard_properties.
Context {backend : Backend} {pandas : Pandas}.
Import App.

Lemma page_top_plain : renders_only plain page_top.
Proof. unfold page_top. repeat renders_step. Qed.

Lemma risk_levels_plain : renders_only plain risk_levels_section.
Proof. unfold risk_levels_section. repeat renders_step. Qed.

Lemma enhanced_plain session rec_df0 : renders_only plain (enhanced_section session rec_df0).
Proof. unfold enhanced_section. repeat renders_step. Qed.

Lemma insights_plain session uploaded_df rec_df :
  renders_only plain (insights session uploaded_df rec_df).
Proof.
  unfold insights, predictive_section, forecast_section, risk_scoring_section,
    optimization_section, footer, head_data.
  repeat renders_step.
Qed.

(** What [show_recommendations] renders: the head of the table, the
    download button for the table, and plain elements. *)
Lemma show_recommendations_run (rec_df : DataFrame) (w w' : World) (r : Res unit) :
  show_recommendations rec_df w = (r, w') →
  ∃ rest, w' = rendered w
                ([st_dataframe (Frame (head 10 rec_df));
                  st_download_button "Download Recommendations CSV"
                    (encode_utf8 (csv_render rec_df)) "recommendations.csv" "text/csv"]
                 ++ rest)
          ∧ Forall plain rest.
Proof.
  unfold show_recommendations. rewrite run_bind. cbn [render].
  rewrite run_bind. cbn [render fs log page].
  match goal with |- ?m ?w0 = _ → _ => assert (renders_only plain m) as Hrest end.
  { repeat renders_step. }
  intros E. destruct (Hrest _ _ _ E) as (Hfs & Hlog & l & Hp & Hl).
  exists l. split; [|done]. destruct w'; cbn in *. unfold rendered; cbn.
  rewrite <- !app_assoc in Hp. cbn in Hp. by subst.
Qed.

(** The recommendations block, by what is on disk. *)
Lemma recommendations_section_run (w w' : World) (r : Res (option DataFrame)) :
  recommendations_section w = (r, w') →
  match fs w !! rec_file with
  | None =>
      r = Ok None ∧
      w' = rendered w [st_subheader "🎯 Recommendations";
                       st_warning "⚠️ Recommendations file not found."]
  | Some text =>
      match csv_parse text with
      | inl e => r = Raised e ∧ w' = rendered w [st_subheader "🎯 Recommendations"]
      | inr rec_df =>
          ∃ rest,
            w' = rendered w
                   ([st_subheader "🎯 Recommendations";
                     st_dataframe (Frame (head 10 rec_df));
                     st_download_button "Download Recommendations CSV"
                       (encode_utf8 (csv_render rec_df)) "recommendations.csv" "text/csv"]
                    ++ rest)
            ∧ Forall plain rest
            ∧ (r = Ok (Some rec_df) ∨ ∃ e, r = Raised e)
      end
  end.
Proof.
  cbv [recommendations_section pd_read_csv read_file read_csv_text os_path_exists render
       mbind M_bind mret M_ret mthrow M_throw].
  cbn [fs log page].
  destruct (fs w !! rec_file) as [text|] eqn:Hfile.
  - rewrite bool_decide_true by eauto. cbv beta iota. cbn [fs log page]. rewrite Hfile.
    destruct (csv_parse text) as [e|rec_df]; cbv beta iota.
    + intros [= <- <-]. done.
    + destruct (show_recommendations rec_df _) as [[[]|e] w1] eqn:E;
        apply show_recommendations_run in E as (rest & -> & Hrest);
        intros [= <- <-]; exists rest; unfold rendered; cbn; rewrite <- !app_assoc; eauto.
  - rewrite bool_decide_false by (intros [? ?]; done).
    intros [= <- <-]. unfold rendered. cbn. by rewrite <- !app_assoc.
Qed.

(** Lines 86-98 put one element on the page, whatever the stages do. *)
Lemma ingest_and_run_page (content : string) (w w' : World) (r : Res DataFrame) :
  ingest_and_run content w = (r, w') →
  page w' = page w ++ [st_success "✅ File uploaded successfully!"].
Proof.
  unfold ingest_and_run, read_csv_text, to_csv_file. rewrite run_bind. cbn [render].
  rewrite run_bind. destruct (csv_parse content) as [e|df]; [by intros [= <- <-]|].
  cbn. unfold_driver. intros Hrun.
  repeat run_stage Hrun.
  all: by inversion Hrun.
Qed.

Lemma key_metrics_run (w : World) :
  key_metrics w = (Ok tt, rendered w key_metric_elements).
Proof.
  unfold rendered, key_metric_elements. cbv [key_metrics mbind M_bind render].
  cbn [fs log page]. by rewrite <- !app_assoc.
Qed.

Lemma page_top_run (w : World) :
  page_top w = (Ok tt, rendered w page_top_elements).
Proof.
  unfold rendered, page_top_elements. cbv [page_top mbind M_bind render].
  cbn [fs log page]. by rewrite <- !app_assoc.
Qed.

(** Once the upload is in and the stages have returned, the script is
    the three blocks that follow. *)
Lemma app_after_pipeline (session : Session) (content : string) (w w1 : World)
    (uploaded_df : DataFrame) :
  uploaded_file session = Some content →
  (page_top;; ingest_and_run content) w = (Ok uploaded_df, w1) →
  app session w =
    (rec_df ← results session; key_metrics;; insights session uploaded_df rec_df) w1.
Proof.
  intros Hup. unfold app, on_upload. rewrite Hup. rewrite !run_bind.
  destruct (page_top w) as [[[]|e] w0]; [|done].
  rewrite run_bind. by intros ->.
Qed.

(** Lines 100-203, by what is on disk: the elements before the
    recommendations block, those of the block, and those after it. *)
Lemma results_run (session : Session) (w w' : World) (r : Res (option DataFrame)) :
  results session w = (r, w') →
  ∃ before shown after,
    w' = rendered w (before ++ shown ++ after) ∧
    Forall plain before ∧ Forall plain after ∧
    ((∃ e, risk_levels_section w = (Raised e, rendered w before) ∧
           shown = [] ∧ after = [] ∧ r = Raised e) ∨
     (risk_levels_section w = (Ok tt, rendered w before) ∧
      match fs w !! rec_file with
      | None =>
          shown = [st_subheader "🎯 Recommendations";
                   st_warning "⚠️ Recommendations file not found."]
      | Some text =>
          match csv_parse text with
          | inl e => shown = [st_subheader "🎯 Recommendations"] ∧ after = [] ∧ r = Raised e
          | inr rec_df =>
              ∃ rest,
                shown = [st_subheader "🎯 Recommendations";
                         st_dataframe (Frame (head 10 rec_df));
                         st_download_button "Download Recommendations CSV"
                           (encode_utf8 (csv_render rec_df)) "recommendations.csv"
                           "text/csv"] ++ rest
                ∧ Forall plain rest
          end
      end)).
Proof.
  unfold results. rewrite run_bind.
  destruct (risk_levels_section w) as [[[]|e] w1] eqn:Erisk;
    destruct (renders_only_rendered _ _ _ _ _ risk_levels_plain Erisk) as (before & -> & Hbefore).
  2:{ intros [= <- <-]. exists before, [], []. rewrite !app_nil_r.
      split; [done|]. split; [done|]. split; [done|]. left. eauto. }
  rewrite run_bind.
  destruct (recommendations_section _) as [[rec_df|e] w2] eqn:Erec;
    apply recommendations_section_run in Erec; cbn [rendered fs] in Erec.
  - intros Eenh.
    destruct (renders_only_rendered _ _ _ _ _ (enhanced_plain _ _) Eenh) as (after & -> & Hafter).
    destruct (fs w !! rec_file) as [text|].
    + destruct (csv_parse text) as [e|df]; [by destruct Erec|].
      destruct Erec as (rest & -> & Hrest & _).
      eexists before, _, after. rewrite !rendered_rendered.
      split; [done|]. split; [done|]. split; [done|]. right. eauto.
    + destruct Erec as [_ ->].
      eexists before, _, after. rewrite !rendered_rendered.
      split; [done|]. split; [done|]. split; [done|]. right. eauto.
  - intros [= <- <-].
    destruct (fs w !! rec_file) as [text|]; [|by destruct Erec].
    destruct (csv_parse text) as [e'|df].
    + destruct Erec as [[= ->] ->].
      eexists before, _, []. rewrite !rendered_rendered, app_nil_r.
      split; [done|]. split; [done|]. split; [done|]. right. eauto.
    + destruct Erec as (rest & -> & Hrest & _).
      eexists before, _, []. rewrite !rendered_rendered, app_nil_r.
      split; [done|]. split; [done|]. split; [done|]. right. eauto.
Qed.

(** One run of the script, block by block. *)
Lemma app_run (session : Session) (w w' : World) (r : Res unit) :
  app session w = (r, w') →
  match uploaded_file session with
  | None =>
      r = Ok tt ∧
      w' = rendered w (page_top_elements ++
                       [st_info "Please upload a CSV file to get started."])
  | Some content =>
      ∃ r1 w1,
        ingest_and_run content (rendered w page_top_elements) = (r1, w1) ∧
        match r1 with
        | Raised e => r = Raised e ∧ w' = w1
        | Ok uploaded_df =>
            ∃ r2 w2,
              results session w1 = (r2, w2) ∧
              match r2 with
              | Raised e => r = Raised e ∧ w' = w2
              | Ok rec_df =>
                  insights session uploaded_df rec_df (rendered w2 key_metric_elements)
                  = (r, w')
              end
        end
  end.
Proof.
  unfold app, on_upload. rewrite run_bind, page_top_run.
  destruct (uploaded_file session) as [content|].
  - rewrite run_bind.
    destruct (ingest_and_run content _) as [[u|e] w1] eqn:E1.
    + rewrite run_bind. intros E. exists (Ok u), w1. split; [done|].
      destruct (results session w1) as [[rec_df|e] w2] eqn:E2.
      * exists (Ok rec_df), w2. split; [done|].
        by rewrite run_bind, key_metrics_run in E.
      * exists (Raised e), w2. split; [done|]. by inversion E.
    + intros [= <- <-]. by exists (Raised e), w1.
  - intros [= <- <-]. split; [done|]. unfold rendered. cbn [fs log page]. by rewrite app_assoc.
Qed.

Lemma results_no_metric (session : Session) : renders_only no_metric (results session).
Proof.
  unfold results, risk_levels_section, recommendations_section, show_recommendations,
    enhanced_section.
  repeat renders_step.
Qed.

Lemma no_metric_metrics (l : list Widget) : Forall no_metric l → metrics_of l = [].
Proof.
  induction 1 as [|x l Hx _ IH]; [done|].
  change (x :: l) with ([x] ++ l). by rewrite metrics_of_app, Hx, IH.
Qed.

(** C9. Whatever is uploaded and whatever the stages and the library
    do, the metric cards on the page are none (the script stopped, or
    nothing was uploaded, before the Key Metrics block) or exactly
    Total Products 1,000, Expired Items 50 and Near-Expiry Items 200;
    and they are these three whenever the blocks before Key Metrics
    have returned. *)
Theorem key_metrics_are_constants (session : Session) (w w' : World) (r : Res unit) :
  app session w = (r, w') →
  ∃ l, page w' = page w ++ l ∧
    (metrics_of l = [] ∨ metrics_of l = key_metric_values) ∧
    (∀ content uploaded_df w1 rec_df w2,
       uploaded_file session = Some content →
       (page_top;; ingest_and_run content) w = (Ok uploaded_df, w1) →
       results session w1 = (Ok rec_df, w2) →
       metrics_of l = key_metric_values).
Proof.
  intros E. apply app_run in E.
  destruct (uploaded_file session) as [content|] eqn:Hup.
  - destruct E as (r1 & w1 & E1 & E).
    pose proof (ingest_and_run_page _ _ _ _ E1) as Hp1. cbn [rendered page] in Hp1.
    destruct r1 as [u|e].
    + destruct E as (r2 & w2 & E2 & E).
      destruct (renders_only_rendered _ _ _ _ _ (results_no_metric _) E2) as (l2 & -> & Hl2).
      apply no_metric_metrics in Hl2.
      destruct r2 as [rec_df|e].
      * destruct (renders_only_rendered _ _ _ _ _ (insights_plain _ _ _) E) as (l4 & -> & Hl4).
        apply plain_metrics in Hl4.
        exists (page_top_elements ++ [st_success "✅ File uploaded successfully!"]
                ++ l2 ++ key_metric_elements ++ l4).
        split; [cbn [rendered page]; rewrite Hp1; by rewrite <- !app_assoc|].
        assert (metrics_of (page_top_elements ++ [st_success "✅ File uploaded successfully!"]
                            ++ l2 ++ key_metric_elements ++ l4) = key_metric_values) as Hm.
        { rewrite !metrics_of_app, Hl2, Hl4. reflexivity. }
        split; [by right|]. intros; exact Hm.
      * destruct E as [-> ->].
        exists (page_top_elements ++ [st_success "✅ File uploaded successfully!"] ++ l2).
        split; [cbn [rendered page]; rewrite Hp1; by rewrite <- !app_assoc|].
        split; [left; rewrite !metrics_of_app, Hl2; reflexivity|].
        intros content' u' w1' rec_df' w2' [= <-] Hpre Hres.
        rewrite run_bind, page_top_run, E1 in Hpre. injection Hpre as <- <-.
        rewrite E2 in Hres. discriminate Hres.
    + destruct E as [-> ->].
      exists (page_top_elements ++ [st_success "✅ File uploaded successfully!"]).
      split; [rewrite Hp1; by rewrite <- !app_assoc|].
      split; [by left|].
      intros content' u' w1' rec_df' w2' [= <-] Hpre Hres.
      rewrite run_bind, page_top_run, E1 in Hpre. discriminate Hpre.
  - destruct E as [-> ->]. eexists. split; [reflexivity|]. split; [by left|].
    intros; discriminate.
Qed.

(** C8. Every download button on the page carries the UTF-8 bytes of
    [to_csv(index=False)] of the table parsed from the recommendations
    file as it is on disk once the stages have run, under the file name
    recommendations.csv; so, by the library's own law that parsing what
    it wrote gives the table back, the download parses to that table.
    When the file exists and parses and the page has come to the
    recommendations block, the page offers exactly that one download. *)
Theorem download_is_recommendation_table (session : Session) (w w' : World) (r : Res unit) :
  app session w = (r, w') →
  ∃ l, page w' = page w ++ l ∧
    (∀ label data file_name mime,
       st_download_button label data file_name mime ∈ l →
       ∃ text rec_df,
         fs w' !! rec_file = Some text ∧ csv_parse text = inr rec_df ∧
         data = encode_utf8 (csv_render rec_df) ∧
         file_name = "recommendations.csv" ∧ mime = "text/csv" ∧
         (csv_parse (csv_render rec_df) = inr rec_df →
          csv_parse (decode_utf8 data) = inr rec_df)) ∧
    (∀ content uploaded_df w1 w2 text rec_df,
       uploaded_file session = Some content →
       (page_top;; ingest_and_run content) w = (Ok uploaded_df, w1) →
       risk_levels_section w1 = (Ok tt, w2) →
       fs w1 !! rec_file = Some text →
       csv_parse text = inr rec_df →
       downloads_of l = [encode_utf8 (csv_render rec_df)]).
Proof.
  intros E. apply app_run in E.
  destruct (uploaded_file session) as [content|] eqn:Hup.
  2:{ destruct E as [-> ->]. eexists. split; [reflexivity|]. split.
      - intros label data file_name mime Hin. unfold page_top_elements in Hin.
        cbn [app] in Hin. elem_cases Hin.
      - intros; discriminate. }
  destruct E as (r1 & w1 & E1 & E).
  pose proof (ingest_and_run_page _ _ _ _ E1) as Hp1. cbn [rendered page] in Hp1.
  destruct r1 as [u|e].
  2:{ destruct E as [-> ->].
      exists (page_top_elements ++ [st_success "✅ File uploaded successfully!"]).
      split; [rewrite Hp1; by rewrite <- !app_assoc|]. split.
      - intros label data file_name mime Hin. unfold page_top_elements in Hin.
        cbn [app] in Hin. elem_cases Hin.
      - intros content' u' w1' w2' text rec_df [= <-] Hpre.
        rewrite run_bind, page_top_run, E1 in Hpre. discriminate Hpre. }
  destruct E as (r2 & w2 & E2 & E).
  apply results_run in E2 as (before & shown & after & -> & Hbefore & Hafter & Hshown).
  assert (∃ tail, w' = rendered w1 ((before ++ shown ++ after) ++ tail)
                  ∧ Forall no_download tail) as (tail & -> & Htail).
  { destruct r2 as [rec_df|e].
    - destruct (renders_only_rendered _ _ _ _ _ (insights_plain _ _ _) E) as (l4 & -> & Hl4).
      exists (key_metric_elements ++ l4). rewrite !rendered_rendered, <- !app_assoc.
      split; [done|]. apply Forall_app. split; [|by apply plain_no_download].
      repeat constructor.
    - destruct E as [_ ->]. exists []. by rewrite app_nil_r. }
  clear E.
  assert (Forall no_download
            ((page_top_elements ++ [st_success "✅ File uploaded successfully!"])
             ++ before)) as Hfront.
  { apply Forall_app. split; [|by apply plain_no_download]. repeat constructor. }
  assert (Forall no_download (after ++ tail)) as Hback.
  { apply Forall_app. split; [by apply plain_no_download|done]. }
  destruct (downloads_frame _ shown _ Hfront Hback) as [Hdl Hin_shown].
  eexists (((page_top_elements ++ [st_success "✅ File uploaded successfully!"]) ++ before)
           ++ shown ++ after ++ tail).
  split; [cbn [rendered page]; rewrite Hp1; by rewrite <- !app_assoc|].
  split.
  - intros label data file_name mime Hin. apply Hin_shown in Hin; [|done].
    cbn [rendered fs].
    destruct Hshown as [(e & _ & -> & _)|[_ Hshown]]; [by apply elem_of_nil in Hin|].
    destruct (fs w1 !! rec_file) as [text|]; [|subst shown; elem_cases Hin].
    destruct (csv_parse text) as [e|rec_df] eqn:Hparse;
      [destruct Hshown as [-> _]; elem_cases Hin|].
    destruct Hshown as (rest & -> & Hrest).
    apply elem_of_app in Hin as [Hin|Hin].
    + elem_cases Hin. exists text, rec_df.
      repeat (split; [done|]). intros Hlaw. by rewrite decode_encode_utf8.
    + by apply (no_download_elem _ _ (plain_no_download _ Hrest)) in Hin.
  - intros content' u' w1' w2' text rec_df [= <-] Hpre Hrisk Hfile Hparse.
    rewrite run_bind, page_top_run, E1 in Hpre. injection Hpre as <- <-.
    rewrite Hdl.
    destruct Hshown as [(e & Hrisk' & _)|[_ Hshown]]; [congruence|].
    rewrite Hfile, Hparse in Hshown. destruct Hshown as (rest & -> & Hrest).
    rewrite downloads_of_app, (plain_downloads _ Hrest). reflexivity.
Qed.

(** ** The blocks after Key Metrics *)

Ltac run_block :=
  cbv [risk_levels_section forecast_section risk_scoring_section optimization_section
       predictive_section enhanced_section recommendations_section
       pd_read_csv read_file read_csv_text os_path_exists render getitem query
       mbind M_bind mret M_ret mthrow M_throw];
  cbn [fs log page].

(** The Expiry Prediction Table never raises. *)
Lemma predictive_section_run (session : Session) (uploaded_df : DataFrame) (w : World) :
  is_Some (uploaded_file session) →
  predictive_section session uploaded_df w =
    (Ok (predictive_table uploaded_df),
     rendered w [st_markdown "<h2 style='text-align: center;'>Predictive Insights</h2>" true;
                 st_subheader "Expiry Prediction Table";
                 st_dataframe (Frame (head 10 (predictive_table uploaded_df)))]).
Proof.
  intros Hup. run_block. rewrite bool_decide_true by done. cbv beta iota.
  unfold predictive_table, rendered.
  destruct (has_column "Risk_Level" uploaded_df) eqn:Hcol; cbv beta iota.
  - destruct (has_column_index _ _ Hcol) as [i ->]. cbn [fs log page].
    by rewrite <- !app_assoc.
  - assert (column_index "Risk_Level" (df_columns uploaded_df) = None) as ->.
    { apply column_index_None. unfold has_column in Hcol.
      by apply bool_decide_eq_false in Hcol. }
    cbn [fs log page]. by rewrite <- !app_assoc.
Qed.

(** The forecast file is read without a check. *)
Lemma forecast_section_no_file (w : World) :
  fs w !! forecast_file = None →
  forecast_section w =
    (Raised (FileNotFoundError forecast_file),
     rendered w [st_markdown
                   "<h2 style='text-align: center;'>Forecasting & Trend Analysis</h2>" true]).
Proof. intros Hfile. run_block. by rewrite Hfile. Qed.

(** A forecast table without a Date column: a message on the page. *)
Lemma forecast_section_no_date (w : World) (text : string) (forecast_df : DataFrame) :
  fs w !! forecast_file = Some text →
  csv_parse text = inr forecast_df →
  has_column "Date" forecast_df = false →
  forecast_section w =
    (Ok tt,
     rendered w [st_markdown
                   "<h2 style='text-align: center;'>Forecasting & Trend Analysis</h2>" true;
                 st_write "Forecast DataFrame Columns:" (df_columns forecast_df);
                 st_error "The 'Date' column is missing in the forecast data. Please check the CSV file."]).
Proof.
  intros Hfile Hparse Hdate. run_block. rewrite Hfile, Hparse. cbv beta iota.
  rewrite Hdate. cbn [fs log page]. unfold rendered. by rewrite <- !app_assoc.
Qed.

(** An upload without a Risk_Score column: a message on the page. *)
Lemma risk_scoring_section_no_score (w : World) (uploaded_df : DataFrame) :
  has_column "Risk_Score" uploaded_df = false →
  risk_scoring_section uploaded_df w =
    (Ok tt,
     rendered w [st_markdown
                   "<h2 style='text-align: center;'>Risk Scoring Insights</h2>" true;
                 st_write "Uploaded DataFrame Columns:" (df_columns uploaded_df);
                 st_error "The 'Risk_Score' column is missing in the uploaded data. Please check the data or preprocessing pipeline."]).
Proof.
  intros Hscore. run_block. rewrite Hscore. cbn [fs log page]. unfold rendered.
  by rewrite <- !app_assoc.
Qed.

(** With [rec_df] unbound the last block raises. *)
Lemma optimization_section_unbound (w : World) :
  optimization_section None w =
    (Raised (NameError "rec_df"),
     rendered w [st_markdown
                   "<h2 style='text-align: center;'>Optimization & Recommendations</h2>" true]).
Proof. reflexivity. Qed.

(** The risk file is read without a check. *)
Lemma risk_levels_section_no_file (w : World) :
  fs w !! risk_file = None →
  risk_levels_section w =
    (Raised (FileNotFoundError risk_file), rendered w [st_subheader "⚖️ Risk Levels"]).
Proof. intros Hfile. run_block. by rewrite Hfile. Qed.

(** The recommendations file is looked for before it is read. *)
Lemma recommendations_section_no_file (w : World) :
  fs w !! rec_file = None →
  recommendations_section w =
    (Ok None, rendered w [st_subheader "🎯 Recommendations";
                          st_warning "⚠️ Recommendations file not found."]).
Proof.
  intros Hfile. run_block. rewrite Hfile.
  rewrite bool_decide_false by (by intros [? ?]). cbv beta iota. cbn [fs log page].
  unfold rendered. by rewrite <- !app_assoc.
Qed.

Lemma enhanced_section_no_file (session : Session) (rec_df0 : option DataFrame) (w : World) :
  fs w !! rec_file = None →
  enhanced_section session rec_df0 w =
    (Ok rec_df0, rendered w [st_subheader "📊 Enhanced Insights and Filters"]).
Proof.
  intros Hfile. run_block. rewrite Hfile.
  by rewrite bool_decide_false by (by intros [? ?]).
Qed.

(** C10. Once the stages have returned, the script reads the risk file
    and the forecast file without looking for them first. When the risk
    file is absent the run ends in [FileNotFoundError] right after the
    Risk Levels heading. When the forecast file is absent, and the
    blocks before have returned, the run ends in [FileNotFoundError]
    right after the Forecasting heading. Nothing further is rendered in
    either case. The recommendations file is looked for before both of
    its reads: when it is absent the two blocks return, the first after
    a warning. *)
Theorem unguarded_reads_abort_page (session : Session) (content : string)
    (w w1 : World) (uploaded_df : DataFrame) :
  uploaded_file session = Some content →
  (page_top;; ingest_and_run content) w = (Ok uploaded_df, w1) →
  (fs w1 !! risk_file = None →
   app session w =
     (Raised (FileNotFoundError risk_file), rendered w1 [st_subheader "⚖️ Risk Levels"])) ∧
  (fs w1 !! forecast_file = None →
   ∀ rec_df w2, results session w1 = (Ok rec_df, w2) →
     app session w =
       (Raised (FileNotFoundError forecast_file),
        rendered w2
          (key_metric_elements ++
           [st_markdown "<h2 style='text-align: center;'>Predictive Insights</h2>" true;
            st_subheader "Expiry Prediction Table";
            st_dataframe (Frame (head 10 (predictive_table uploaded_df)));
            st_markdown
              "<h2 style='text-align: center;'>Forecasting & Trend Analysis</h2>" true]))) ∧
  (fs w1 !! rec_file = None →
   ∀ w2, risk_levels_section w1 = (Ok tt, w2) →
     recommendations_section w2 =
       (Ok None, rendered w2 [st_subheader "🎯 Recommendations";
                              st_warning "⚠️ Recommendations file not found."]) ∧
     enhanced_section session None
       (rendered w2 [st_subheader "🎯 Recommendations";
                     st_warning "⚠️ Recommendations file not found."]) =
       (Ok None, rendered w2 [st_subheader "🎯 Recommendations";
                              st_warning "⚠️ Recommendations file not found.";
                              st_subheader "📊 Enhanced Insights and Filters"])).
Proof.
  intros Hup Hpre. rewrite (app_after_pipeline _ _ _ _ _ Hup Hpre).
  split; [|split].
  - intros Hfile. unfold results. rewrite !run_bind.
    by rewrite (risk_levels_section_no_file _ Hfile).
  - intros Hfile rec_df w2 Hres. rewrite run_bind, Hres, run_bind, key_metrics_run.
    unfold insights. rewrite run_bind, predictive_section_run by (by rewrite Hup).
    rewrite run_bind, forecast_section_no_file.
    + by rewrite !rendered_rendered.
    + destruct (renders_only_rendered _ _ _ _ _ (results_no_metric _) Hres) as (l & -> & _).
      done.
  - intros Hfile w2 Hrisk.
    destruct (renders_only_rendered _ _ _ _ _ risk_levels_plain Hrisk) as (l & -> & _).
    split; [by apply recommendations_section_no_file|].
    rewrite enhanced_section_no_file by done. by rewrite rendered_rendered.
Qed.

(** Without a recommendations file the script binds no [rec_df]. *)
Lemma results_unbound (session : Session) (w w' : World) (rec_df : option DataFrame) :
  fs w !! rec_file = None →
  results session w = (Ok rec_df, w') →
  rec_df = None.
Proof.
  intros Hfile. unfold results. rewrite run_bind.
  destruct (risk_levels_section w) as [[[]|e] w1] eqn:Erisk; [|done].
  destruct (renders_only_rendered _ _ _ _ _ risk_levels_plain Erisk) as (l & -> & _).
  rewrite run_bind, recommendations_section_no_file by done.
  rewrite enhanced_section_no_file by done. by intros [= <- _].
Qed.

(** With [rec_df] unbound the blocks after Key Metrics never return. *)
Lemma insights_unbound (session : Session) (uploaded_df : DataFrame) (w w' : World)
    (r : Res unit) :
  insights session uploaded_df None w = (r, w') → ∃ e, r = Raised e.
Proof.
  unfold insights. rewrite run_bind.
  destruct (predictive_section _ _ _) as [[u|e] w1]; [|intros [= <- _]; eauto].
  rewrite run_bind.
  destruct (forecast_section _) as [[[]|e] w2]; [|intros [= <- _]; eauto].
  rewrite run_bind.
  destruct (risk_scoring_section _ _) as [[[]|e] w3]; [|intros [= <- _]; eauto].
  rewrite run_bind, optimization_section_unbound. intros [= <- _]; eauto.
Qed.

(** When the recommendations file is absent after the stages have
    returned, the page gets its warning but the run never completes: it
    ends in an exception, [NameError] at the latest. *)
Lemma app_without_recommendations_file (session : Session) (content : string)
    (w w1 w' : World) (uploaded_df : DataFrame) (r : Res unit) :
  uploaded_file session = Some content →
  (page_top;; ingest_and_run content) w = (Ok uploaded_df, w1) →
  fs w1 !! rec_file = None →
  app session w = (r, w') →
  ∃ e, r = Raised e.
Proof.
  intros Hup Hpre Hfile. rewrite (app_after_pipeline _ _ _ _ _ Hup Hpre), run_bind.
  destruct (results session w1) as [[rec_df|e] w2] eqn:Hres; [|intros [= <- _]; eauto].
  apply results_unbound in Hres as ->; [|done].
  rewrite run_bind, key_metrics_run. apply insights_unbound.
Qed.

(** The stages the dashboard calls: an initial part of preprocessing,
    forecasting, risk scoring, recommendation; all four when none
    raises; a call that raises is the last. The expiry classifier is not
    among them, and nothing catches a forecasting failure. *)
Lemma run_backend_pipeline_calls (w w' : World) (r : Res unit) :
  run_backend_pipeline w = (r, w') →
  ∃ l, log w' = log w ++ l ∧
    calls_of l `prefix_of` dashboard_stages ∧
    (∀ s arg e, Called s arg (Some e) ∈ l →
                r = Raised e ∧ last l = Some (Called s arg (Some e))) ∧
    (r = Ok tt → calls_of l = dashboard_stages).
Proof.
  unfold_driver. intros Hrun.
  repeat run_stage Hrun.
  all: inversion Hrun; subst; clear Hrun; cbn [fs log page].
  all: rewrite <- ?app_assoc; eexists; (split; [reflexivity|]).
  all: cbn [app].
  all: (split; [|split]);
    [ cbn; unfold dashboard_stages;
      solve [repeat first [apply prefix_cons | apply prefix_nil]]
    | intros s arg e' Hin; elem_cases Hin; split; reflexivity
    | intros Hok; first [discriminate Hok | reflexivity] ].
Qed.
End dashboard_properties.

(** ** Risk levels and recommendations, on the stages as specified *)

Section risk_level_properties.
Import RiskScoring.

Lemma risk_level_proper (t : Thresholds) (s1 s2 : Q) :
  (s1 == s2)%Q → risk_level t s1 = risk_level t s2.
Proof.
  intros Heq. unfold risk_level.
  assert (∀ c, Qle_bool c s1 = Qle_bool c s2) as Hle.
  { intros c. apply eq_true_iff_eq. rewrite !Qle_bool_iff. by rewrite Heq. }
  by rewrite !Hle.
Qed.

Lemma risk_level_monotone (t : Thresholds) (s1 s2 : Q) :
  (s1 <= s2)%Q → (rank (risk_level t s1) ≤ rank (risk_level t s2))%nat.
Proof.
  intros Hle. unfold risk_level.
  assert (∀ c, Qle_bool c s1 = true → Qle_bool c s2 = true) as Hup.
  { intros c. rewrite !Qle_bool_iff. intros Hc. by apply Qle_trans with s1. }
  destruct (Qle_bool (high_from t) s1) eqn:Hh1.
  - by rewrite (Hup _ Hh1).
  - destruct (Qle_bool (medium_from t) s1) eqn:Hm1.
    + rewrite (Hup _ Hm1). destruct (Qle_bool (high_from t) s2); cbn; lia.
    + cbn. lia.
Qed.

Lemma risk_table_level (t : Thresholds) (scored : list (string * Q)) (r : RiskRecord) :
  r ∈ risk_table t scored → Risk_Level r = risk_level t (Risk_Score r).
Proof.
  unfold risk_table. rewrite list_elem_of_In, in_map_iff.
  by intros (ps & <- & _).
Qed.

(** C4. In the risk table, the level of a row is the image of its score
    under the two fixed cut points, one of Low, Medium, High; so rows
    with equal scores have equal levels, and a higher score never has a
    lower level. *)
Theorem risk_level_function_of_score (t : Thresholds) (scored : list (string * Q))
    (r1 r2 : RiskRecord) :
  r1 ∈ risk_table t scored →
  r2 ∈ risk_table t scored →
  Risk_Level r1 = risk_level t (Risk_Score r1) ∧
  ((Risk_Score r1 == Risk_Score r2)%Q → Risk_Level r1 = Risk_Level r2) ∧
  ((Risk_Score r1 <= Risk_Score r2)%Q →
   (rank (Risk_Level r1) ≤ rank (Risk_Level r2))%nat).
Proof.
  intros H1%risk_table_level H2%risk_table_level. rewrite H1, H2.
  split; [done|]. split; [apply risk_level_proper | apply risk_level_monotone].
Qed.
End risk_level_properties.

Section recommendation_properties.
Import RiskScoring Recommend.

Lemma recommend_product (policy : RiskRecord → list ForecastPoint → string * Q)
    (risk : list RiskRecord) (forecast : list ForecastPoint) (x : Recommendation) :
  x ∈ recommend policy risk forecast →
  ∃ r, r ∈ risk ∧ rec_product x = product r ∧ forecast_of (product r) forecast ≠ [].
Proof.
  unfold recommend. rewrite list_elem_of_omap. intros (r & Hr & Hx).
  exists r. split; [done|].
  destruct (forecast_of (product r) forecast); [discriminate Hx|].
  by injection Hx as <-.
Qed.

(** C5. The products of the recommendations are among the products of
    the risk table the recommender joined with the forecast. *)
Theorem recommended_products_subset
    (policy : RiskRecord → list ForecastPoint → string * Q)
    (risk : list RiskRecord) (forecast : list ForecastPoint) :
  recommended_products (recommend policy risk forecast) ⊆ risk_products risk.
Proof.
  intros p. unfold recommended_products, risk_products.
  rewrite !elem_of_list_to_set, !list_elem_of_In, !in_map_iff.
  intros (x & <- & Hx%list_elem_of_In).
  apply recommend_product in Hx as (r & Hr & -> & _).
  exists r. by rewrite <- list_elem_of_In.
Qed.
End recommendation_properties.

(** ** Running the pipeline again, on the stages as specified *)

Lemma output_files_distinct :
  App.forecast_file ≠ App.risk_file ∧ App.forecast_file ≠ App.rec_file ∧
  App.risk_file ≠ App.rec_file.
Proof. repeat split; discriminate. Qed.

Section idempotence.
Import SpecStages RunPipeline.

(** Lookups in the files written so far. *)
Ltac files_lookup H :=
  repeat first
    [ rewrite lookup_insert_eq in H
    | rewrite lookup_insert_ne in H by (first [done | by apply not_eq_sym | discriminate]) ].

Ltac reduce H := cbv beta iota zeta in H; cbn [fs log page] in H; files_lookup H.

(** Case analysis on what the next transform, or the next read, gives. *)
Ltac next_case H1 H2 :=
  match type of H1 with
  | context [preprocess ?t ?x] => destruct (preprocess t x) eqn:?
  | context [classify ?t ?x] => destruct (classify t x) eqn:?
  | context [forecast ?t ?x] => destruct (forecast t x) eqn:?
  | context [score ?t ?x] => destruct (score t x) eqn:?
  | context [SpecStages.recommend ?t ?x ?y] => destruct (SpecStages.recommend t x y) eqn:?
  | context [isinstance_Exception ?c] => destruct (isinstance_Exception c) eqn:?
  | context [@lookup _ _ _ _ ?k ?m] => destruct (@lookup _ _ _ _ k m) eqn:?
  end; reduce H1; reduce H2.

(** C6. With stages that are deterministic file-to-file transforms,
    a second run of the pipeline on the same input CSV ends as the
    first did and leaves every file, so each of the processed,
    forecast, risk and recommendation files, with the content it had
    after the first run. *)
Theorem run_pipeline_idempotent (t : Transforms) (path : string)
    (w w1 w2 : World) (r1 r2 : Res unit) :
  processed_file t ≠ App.forecast_file →
  processed_file t ≠ App.risk_file →
  processed_file t ≠ App.rec_file →
  run_pipeline (backend:=file_backend t) path w = (r1, w1) →
  fs w1 !! path = fs w !! path →
  run_pipeline (backend:=file_backend t) path w1 = (r2, w2) →
  r2 = r1 ∧ fs w2 = fs w1.
Proof.
  destruct output_files_distinct as (Hfr & Hfc & Hrc).
  intros Hpf Hpr Hpc H1 Hin H2.
  destruct w as [files lg pg], w1 as [files1 lg1 pg1], w2 as [files2 lg2 pg2].
  cbv [run_pipeline call print try_except_Exception mbind M_bind mret M_ret
       stage_run file_backend file_stage] in H1, H2.
  cbn [fs log page] in *.
  rewrite Hin in H2. clear Hin.
  repeat next_case H1 H2.
  all: injection H1 as <- <- _ _.
  all: reduce H2.
  all: repeat match goal with
              | E : _ = _ |- _ =>
                  tryif constr_eq E H2 then fail else (rewrite E in H2; reduce H2)
              end.
  all: injection H2 as <- <- _ _; (split; [reflexivity|]).
  all: try reflexivity.
  all: apply map_eq; intros k; rewrite ?lookup_insert; repeat case_decide; congruence.
Qed.

End idempotence.

(** ** The two drivers side by side *)

Section drivers_compared.
Import Demo.

(** C1. The dashboard runs the stages without the handler that
    [run_pipeline] puts around the forecaster. On a forecaster that
    raises a [ValueError], the dashboard's run ends in that exception
    with the forecaster's call as its last, nothing is logged, and risk
    scoring and recommendation are never called; [run_pipeline] on the
    same stages logs the skipped step, calls the remaining stages and
    returns. *)
Theorem dashboard_forecast_failure_not_contained :
  let failing := raising forecast_main ConvergenceError in
  let dashboard :=
    App.app (backend:=failing) (pandas:=plain_csv) (upload inventory_csv) empty_world in
  let cli := RunPipeline.run_pipeline (backend:=failing) App.uploaded_file_path empty_world in
  isinstance_Exception (exn_class ConvergenceError) = true ∧
  (dashboard.1 = Raised ConvergenceError ∧
   log dashboard.2 =
     [Called data_preprocessing_main (Some App.uploaded_file_path) None;
      Called forecast_main None (Some ConvergenceError)] ∧
   last (page dashboard.2) = Some (st_success "✅ File uploaded successfully!")) ∧
  (cli.1 = Ok tt ∧
   log cli.2 =
     [Printed RunPipeline.step1;
      Called data_preprocessing_main (Some App.uploaded_file_path) None;
      Printed RunPipeline.step2; Called predict_expiry_class None None;
      Printed RunPipeline.step3; Called forecast_main None (Some ConvergenceError);
      Printed (RunPipeline.skipped ConvergenceError);
      Printed RunPipeline.step4; Called risk_main None None;
      Printed RunPipeline.step5; Called run_recommendation_pipeline None None;
      Printed RunPipeline.completed]).
Proof. vm_compute. repeat split. Qed.

(** C2. The dashboard does not run the pipeline of the command line
    entry point. On stages that all return, the dashboard calls four
    stages and leaves out the expiry classifier, where [run_pipeline]
    calls five. On a forecaster that raises, the dashboard's run ends
    in that exception after two calls, where [run_pipeline] catches it
    and goes on to call all five stages. *)
Theorem dashboard_pipeline_differs_from_cli :
  let stages := writing (Some forecast_csv) (Some risk_csv) (Some recommendations_csv) in
  let failing := raising forecast_main ConvergenceError in
  let dashboard b :=
    App.app (backend:=b) (pandas:=plain_csv) (upload inventory_csv) empty_world in
  let cli b := RunPipeline.run_pipeline (backend:=b) App.uploaded_file_path empty_world in
  ((dashboard stages).1 = Ok tt ∧
   calls_of (log (dashboard stages).2) =
     [data_preprocessing_main; forecast_main; risk_main; run_recommendation_pipeline]) ∧
  ((cli stages).1 = Ok tt ∧
   calls_of (log (cli stages).2) =
     [data_preprocessing_main; predict_expiry_class; forecast_main; risk_main;
      run_recommendation_pipeline]) ∧
  ((dashboard failing).1 = Raised ConvergenceError ∧
   calls_of (log (dashboard failing).2) = [data_preprocessing_main; forecast_main]) ∧
  ((cli failing).1 = Ok tt ∧
   calls_of (log (cli failing).2) =
     [data_preprocessing_main; predict_expiry_class; forecast_main; risk_main;
      run_recommendation_pipeline]).
Proof. vm_compute. repeat split. Qed.

(** C7. For an upload after which the stages leave a forecast file and
    a risk file but no recommendations file, the page gets the
    "Recommendations file not found" warning and goes on through the
    next blocks, and then the run ends in [NameError] on [rec_df] at
    the Optimization heading: the recommendation table and the footer
    are never rendered. *)
Theorem missing_recommendations_file_ends_in_NameError :
  let stages := writing (Some forecast_csv) (Some risk_csv) None in
  let out := App.app (backend:=stages) (pandas:=plain_csv) (upload inventory_csv) empty_world in
  out.1 = Raised (NameError "rec_df") ∧
  fs out.2 !! App.rec_file = None ∧
  st_warning "⚠️ Recommendations file not found." ∈ page out.2 ∧
  last (page out.2) =
    Some (st_markdown
            "<h2 style='text-align: center;'>Optimization & Recommendations</h2>" true).
Proof.
  vm_compute. split; [reflexivity|]. split; [reflexivity|]. split; [|reflexivity].
  find_elem.
Qed.
End drivers_compared.

(** ** The properties on concrete runs *)

Section concrete_runs.
Import Demo.

(** A forecaster that raises: the run goes on and returns. *)
Lemma run_pipeline_failure_containment_witness :
  let stages := raising forecast_main ConvergenceError in
  let out := RunPipeline.run_pipeline (backend:=stages) "upload.csv" disk in
  out = (Ok tt, out.2) ∧
  ∃ before raised after,
    log out.2 =
      before ++ [Called forecast_main None (Some ConvergenceError);
                 Printed (RunPipeline.skipped ConvergenceError);
                 Printed RunPipeline.step4; Called risk_main None raised] ++ after.
Proof.
  intros stages out. split; [vm_compute; reflexivity|].
  destruct (run_pipeline_failure_containment (backend:=stages) "upload.csv" disk out.2 out.1)
    as (l & Hlog & Hcaught & _); [vm_compute; reflexivity|].
  change (log disk) with (@nil Event) in Hlog. cbn [app] in Hlog. subst l.
  destruct (Hcaught ConvergenceError) as (before & raised & after & Hl & _).
  - vm_compute. find_elem.
  - reflexivity.
  - by exists before, raised, after.
Defined.

(** The command line run on an upload. *)
Lemma main_calls_five_stages_in_order_witness :
  let stages := SpecStages.file_backend fixed_tables in
  let argv := ["run_pipeline.py"; "upload.csv"] in
  let out := RunPipeline.main (backend:=stages) argv disk in
  argv !! 1%nat = Some "upload.csv" ∧
  out = (Ok tt, out.2) ∧
  calls_of (log out.2) = five_stages.
Proof.
  intros stages argv out. split; [reflexivity|]. split; [vm_compute; reflexivity|].
  destruct (main_calls_five_stages_in_order (backend:=stages) argv "upload.csv" disk out.2 out.1)
    as (l & Hlog & _ & _ & _ & Hall); [reflexivity|vm_compute; reflexivity|].
  change (log disk) with (@nil Event) in Hlog. cbn [app] in Hlog. subst l.
  apply Hall. intros s arg e Hin. vm_compute in Hin. elem_cases Hin.
Defined.

(** Two products with the same score, written as different fractions. *)
Lemma risk_level_function_of_score_witness :
  let t := {| RiskScoring.medium_from := 1 # 3; RiskScoring.high_from := 2 # 3 |} in
  let scored := [("Milk", 9 # 10); ("Rice", 1 # 10); ("Eggs", 18 # 20)]%Q in
  let milk := {| RiskScoring.product := "Milk"; RiskScoring.Risk_Score := 9 # 10;
                 RiskScoring.Risk_Level := RiskScoring.High |} in
  let eggs := {| RiskScoring.product := "Eggs"; RiskScoring.Risk_Score := 18 # 20;
                 RiskScoring.Risk_Level := RiskScoring.High |} in
  milk ∈ RiskScoring.risk_table t scored ∧
  eggs ∈ RiskScoring.risk_table t scored ∧
  (RiskScoring.Risk_Score milk == RiskScoring.Risk_Score eggs)%Q ∧
  RiskScoring.Risk_Level milk = RiskScoring.Risk_Level eggs.
Proof.
  intros t scored milk eggs.
  assert (milk ∈ RiskScoring.risk_table t scored) as Hmilk by (vm_compute; find_elem).
  assert (eggs ∈ RiskScoring.risk_table t scored) as Heggs by (vm_compute; find_elem).
  assert (RiskScoring.Risk_Score milk == RiskScoring.Risk_Score eggs)%Q as Heq
    by reflexivity.
  repeat (split; [assumption|]).
  by apply (risk_level_function_of_score t scored milk eggs Hmilk Heggs).
Defined.

(** A second run on the same upload. *)
Lemma run_pipeline_idempotent_witness :
  let stages := SpecStages.file_backend fixed_tables in
  let first := RunPipeline.run_pipeline (backend:=stages) "upload.csv" disk in
  let second := RunPipeline.run_pipeline (backend:=stages) "upload.csv" first.2 in
  fs first.2 !! "upload.csv" = fs disk !! "upload.csv" ∧
  second.1 = first.1 ∧ fs second.2 = fs first.2.
Proof.
  intros stages first second.
  assert (fs first.2 !! "upload.csv" = fs disk !! "upload.csv") as Hin by (vm_compute; reflexivity).
  split; [exact Hin|].
  apply (run_pipeline_idempotent fixed_tables "upload.csv" disk first.2 second.2
           first.1 second.1);
    [discriminate | discriminate | discriminate | vm_compute; reflexivity | exact Hin
    | vm_compute; reflexivity].
Defined.

(** The upload as pandas reads it. *)
Lemma inventory_csv_parsed :
  csv_parse (Pandas:=plain_csv) inventory_csv =
    inr {| df_columns := ["Product_Name"; "Category"; "Stock_Quantity"];
           df_rows := [[Val "Milk"; Val "Dairy"; Val "12"];
                       [Val "Rice"; Val "Grains"; Val "40"]] |}.
Proof. reflexivity. Qed.

(** A run of the dashboard on stages that write all three files: the
    one download on the page is the recommendations file again. *)
Lemma download_is_recommendation_table_witness :
  let stages := writing (Some forecast_csv) (Some risk_csv) (Some recommendations_csv) in
  let out := App.app (backend:=stages) (pandas:=plain_csv) (upload inventory_csv) empty_world in
  out = (Ok tt, out.2) ∧
  downloads_of (page out.2) = [encode_utf8 recommendations_csv].
Proof.
  intros stages out. split; [vm_compute; reflexivity|].
  destruct (download_is_recommendation_table (backend:=stages) (pandas:=plain_csv)
              (upload inventory_csv) empty_world out.2 out.1)
    as (l & Hpage & _ & Hshown); [vm_compute; reflexivity|].
  change (page empty_world) with (@nil Widget) in Hpage. cbn [app] in Hpage.
  rewrite Hpage.
  pose (w1 := ((App.page_top;; App.ingest_and_run (backend:=stages) (pandas:=plain_csv) inventory_csv)
                 empty_world).2).
  pose (w2 := (App.risk_levels_section (pandas:=plain_csv) w1).2).
  rewrite (Hshown inventory_csv
             {| df_columns := ["Product_Name"; "Category"; "Stock_Quantity"];
                df_rows := [[Val "Milk"; Val "Dairy"; Val "12"];
                            [Val "Rice"; Val "Grains"; Val "40"]] |}
             w1 w2 recommendations_csv
             {| df_columns := ["Product_Name"; "Category"; "Stock_Quantity"; "Risk_Level";
                               "Predicted_Action"; "Predicted_Discount_Percent"];
                df_rows := [[Val "Milk"; Val "Dairy"; Val "12"; Val "High";
                             Val "Discount"; Val "30"];
                            [Val "Rice"; Val "Grains"; Val "40"; Val "Low";
                             Val "Hold"; Val "0"]] |}).
  all: vm_compute; reflexivity.
Defined.

(** The same run shows the three cards. *)
Lemma key_metrics_are_constants_witness :
  let stages := writing (Some forecast_csv) (Some risk_csv) (Some recommendations_csv) in
  let out := App.app (backend:=stages) (pandas:=plain_csv) (upload inventory_csv) empty_world in
  out = (Ok tt, out.2) ∧
  (metrics_of (page out.2) = [] ∨ metrics_of (page out.2) = key_metric_values).
Proof.
  intros stages out. split; [vm_compute; reflexivity|].
  destruct (key_metrics_are_constants (backend:=stages) (pandas:=plain_csv)
              (upload inventory_csv) empty_world out.2 out.1)
    as (l & Hpage & Hcards & _); [vm_compute; reflexivity|].
  change (page empty_world) with (@nil Widget) in Hpage. cbn [app] in Hpage.
  by rewrite Hpage.
Defined.

(** Stages that write nothing: the run ends at the read of the risk
    file. *)
Lemma unguarded_reads_abort_page_witness :
  let session := upload inventory_csv in
  let uploaded_df :=
    {| df_columns := ["Product_Name"; "Category"; "Stock_Quantity"];
       df_rows := [[Val "Milk"; Val "Dairy"; Val "12"];
                   [Val "Rice"; Val "Grains"; Val "40"]] |} in
  let before :=
    (App.page_top;; App.ingest_and_run (backend:=idle) (pandas:=plain_csv) inventory_csv) empty_world in
  uploaded_file session = Some inventory_csv ∧
  before = (Ok uploaded_df, before.2) ∧
  fs before.2 !! App.risk_file = None ∧
  App.app (backend:=idle) (pandas:=plain_csv) session empty_world =
    (Raised (FileNotFoundError App.risk_file),
     rendered before.2 [st_subheader "⚖️ Risk Levels"]).
Proof.
  intros session uploaded_df before.
  assert (before = (Ok uploaded_df, before.2)) as Hbefore by (vm_compute; reflexivity).
  assert (fs before.2 !! App.risk_file = None) as Hfile by (vm_compute; reflexivity).
  split; [reflexivity|]. split; [exact Hbefore|]. split; [exact Hfile|].
  by apply (unguarded_reads_abort_page (backend:=idle) (pandas:=plain_csv) session inventory_csv
              empty_world before.2 uploaded_df eq_refl Hbefore).
Defined.
(** A forecast table without a Date column and an upload without a
    Risk_Score column: two messages on the page, and the run completes. *)
Example missing_columns_are_reported :
  let stages := writing (Some forecast_csv_undated) (Some risk_csv) (Some recommendations_csv) in
  let out := App.app (backend:=stages) (pandas:=plain_csv) (upload inventory_csv) empty_world in
  out.1 = Ok tt ∧
  st_error "The 'Date' column is missing in the forecast data. Please check the CSV file."
    ∈ page out.2 ∧
  st_error "The 'Risk_Score' column is missing in the uploaded data. Please check the data or preprocessing pipeline."
    ∈ page out.2.
Proof. vm_compute. split; [reflexivity|]. split; find_elem. Qed.

(** Nothing uploaded: the page asks for a file and no stage is called. *)
Example no_upload_calls_no_stage :
  let out := App.app (backend:=idle) (pandas:=plain_csv) no_upload empty_world in
  out.1 = Ok tt ∧ log out.2 = [] ∧
  last (page out.2) = Some (st_info "Please upload a CSV file to get started.").
Proof. vm_compute. repeat split. Qed.

(** A risk scorer that fails ends the command line run at its call. *)
Example failing_risk_scorer_aborts :
  let out := RunPipeline.run_pipeline (backend:=SpecStages.file_backend failing_risk)
               "upload.csv" disk in
  out.1 = Raised ConvergenceError ∧
  calls_of (log out.2) =
    [data_preprocessing_main; predict_expiry_class; forecast_main; risk_main].
Proof. vm_compute. repeat split. Qed.

(** A forecaster that fails on a disk without an earlier forecast: the
    step is skipped, and the recommender then finds no forecast file. *)
Example failing_forecaster_without_earlier_forecast :
  let out := RunPipeline.run_pipeline (backend:=SpecStages.file_backend failing_forecast)
               "upload.csv" disk in
  out.1 = Raised (FileNotFoundError App.forecast_file) ∧
  calls_of (log out.2) = five_stages ∧
  Printed (RunPipeline.skipped ConvergenceError) ∈ log out.2.
Proof. vm_compute. split; [reflexivity|]. split; [reflexivity|]. find_elem. Qed.
End concrete_runs.

(** * Further properties of the drivers *)

(** ** run_pipeline.py *)

Section pipeline_edges.
Context {backend : Backend}.
Import RunPipeline.

Lemma skipped_not_completed (e : PyExn) : Printed (skipped e) ≠ Printed completed.
Proof. unfold skipped, completed. cbn. discriminate. Qed.

(** X2. The "Pipeline completed successfully" line is printed exactly
    when the run returns, and then it is the last thing the run does; a
    forecast step that was skipped does not prevent it. The run puts
    nothing on the page. *)
Theorem run_pipeline_completed_line (path : string) (w w' : World) (r : Res unit) :
  run_pipeline path w = (r, w') →
  page w' = page w ∧
  ∃ l, log w' = log w ++ l ∧
    (Printed completed ∈ l ↔ r = Ok tt) ∧
    (r = Ok tt → last l = Some (Printed completed)) ∧
    (∀ e, Printed (skipped e) ∈ l → Called risk_main None None ∈ l →
          Called run_recommendation_pipeline None None ∈ l → r = Ok tt).
Proof.
  unfold_driver. intros Hrun.
  repeat run_stage Hrun.
  all: try (destruct (isinstance_Exception (exn_class _)) eqn:?; cbn [fs log page] in Hrun).
  all: repeat run_stage Hrun.
  all: inversion Hrun; subst; clear Hrun; cbn [fs log page].
  all: (split; [reflexivity|]).
  all: rewrite <- ?app_assoc; eexists; (split; [reflexivity|]).
  all: cbn [app].
  all: split; [|split].
  all: try (split; [intros Hin | intros Hok];
            first [ reflexivity | discriminate Hok | find_elem
                  | exfalso; elem_cases Hin; by eapply skipped_not_completed ]).
  all: try (intros Hok; first [reflexivity | discriminate Hok]).
  all: intros e' Hs Hr Hc; first [reflexivity | exfalso; elem_cases Hc | exfalso; elem_cases Hr].
Qed.

(** X3. Started without a path argument, the entry point prints the
    usage line and does nothing else: no stage is called and no file is
    touched. Started with one, it runs the pipeline on the first
    argument and ignores any further ones. *)
Theorem main_by_arguments (argv : list string) (w : World) :
  ((List.length argv < 2)%nat →
   main argv w = (Ok tt, {| fs := fs w; log := log w ++ [Printed usage]; page := page w |})) ∧
  (∀ prog path rest, argv = prog :: path :: rest → main argv w = run_pipeline path w).
Proof.
  split.
  - intros Hlen. unfold main. by apply Nat.ltb_lt in Hlen as ->.
  - intros prog path rest ->. reflexivity.
Qed.
End pipeline_edges.

(** ** dashboard/app.py: the upload and the stages *)

Section dashboard_upload.
Context {backend : Backend} {pandas : Pandas}.
Import App.

(** Lines 86-98, by whether the upload parses. *)
Lemma ingest_and_run_run (content : string) (w : World) :
  ingest_and_run content w =
    match csv_parse content with
    | inl e => (Raised e, rendered w [st_success "✅ File uploaded successfully!"])
    | inr uploaded_df =>
        match run_backend_pipeline (with_saved_upload uploaded_df w) with
        | (Ok _, w') => (Ok uploaded_df, w')
        | (Raised e, w') => (Raised e, w')
        end
    end.
Proof.
  unfold ingest_and_run, read_csv_text, to_csv_file. rewrite run_bind. cbn [render].
  rewrite run_bind. destruct (csv_parse content) as [e|df]; [reflexivity|].
  unfold with_saved_upload. cbv [mret M_ret]. cbv beta iota. rewrite run_bind.
  cbv beta iota. cbn [fs log page]. rewrite run_bind.
  by destruct (run_backend_pipeline _) as [[[]|e] w'].
Qed.

(** The stage calls of the dashboard leave the page alone and begin with
    preprocessing on the files as they are. *)
Lemma run_backend_pipeline_first (w w' : World) (r : Res unit) :
  run_backend_pipeline w = (r, w') →
  page w' = page w ∧
  ∃ rest, log w' = log w ++
            Called data_preprocessing_main (Some uploaded_file_path)
              (stage_run data_preprocessing_main (Some uploaded_file_path) (fs w)).1 :: rest
          ∧ (∀ line, Printed line ∉ rest).
Proof.
  unfold_driver. intros Hrun.
  repeat run_stage Hrun.
  all: inversion Hrun; subst; clear Hrun; cbn [fs log page].
  all: (split; [reflexivity|]).
  all: rewrite <- ?app_assoc; cbn [app]; eexists; (split; [reflexivity|]).
  all: intros line Hin; elem_cases Hin.
Qed.

(** What a run of the script leaves in the files and the trace: what
    the stage calls left, or nothing new. *)
Lemma app_effects (session : Session) (w w' : World) (r : Res unit) :
  app session w = (r, w') →
  match uploaded_file session with
  | None => r = Ok tt ∧ fs w' = fs w ∧ log w' = log w
  | Some content =>
      match csv_parse content with
      | inl e => r = Raised e ∧ fs w' = fs w ∧ log w' = log w
      | inr uploaded_df =>
          ∃ r1 w1,
            run_backend_pipeline
              (with_saved_upload uploaded_df (rendered w page_top_elements)) = (r1, w1) ∧
            fs w' = fs w1 ∧ log w' = log w1 ∧
            (∀ e, r1 = Raised e → r = Raised e ∧ w' = w1) ∧
            (r = Ok tt → r1 = Ok tt)
      end
  end.
Proof.
  intros E. apply app_run in E.
  destruct (uploaded_file session) as [content|].
  2:{ by destruct E as [-> ->]. }
  destruct E as (r1 & w1 & E1 & E). rewrite ingest_and_run_run in E1.
  destruct (csv_parse content) as [e|df].
  { injection E1 as <- <-. by destruct E as [-> ->]. }
  destruct (run_backend_pipeline _) as [[[]|e] w1'] eqn:Erun; injection E1 as <- <-.
  2:{ destruct E as [-> ->]. exists (Raised e), w1'.
      repeat split; try done; by intros e' [= <-]. }
  exists (Ok tt), w1'. split; [done|].
  destruct E as (r2 & w2 & E2 & E).
  destruct (renders_only_rendered _ _ _ _ _ (results_no_metric _) E2) as (l2 & -> & _).
  destruct r2 as [rec_df|e].
  - destruct (renders_only_rendered _ _ _ _ _ (insights_plain _ _ _) E) as (l4 & -> & _).
    repeat split; try done.
  - destruct E as [-> ->]. repeat split; try done.
Qed.

(** X4. Without an upload the script shows the page top and the prompt
    to upload a file, and returns: no stage is called and no file is
    read or written. *)
Theorem app_without_upload (session : Session) (w : World) :
  uploaded_file session = None →
  app session w =
    (Ok tt, rendered w (page_top_elements ++
                        [st_info "Please upload a CSV file to get started."])).
Proof.
  intros Hup. unfold app, on_upload. rewrite run_bind, page_top_run, Hup.
  unfold rendered, render. cbn [fs log page]. by rewrite <- app_assoc.
Qed.

(** X5. An upload that pandas cannot parse ends the run in the parser's
    exception right after the upload message: nothing is written under
    data/raw and no stage is called. *)
Theorem app_unparsable_upload (session : Session) (content : string) (e : PyExn)
    (w : World) :
  uploaded_file session = Some content →
  csv_parse content = inl e →
  app session w =
    (Raised e, rendered w (page_top_elements ++
                           [st_success "✅ File uploaded successfully!"])).
Proof.
  intros Hup Hparse. unfold app, on_upload.
  rewrite run_bind, page_top_run, Hup, run_bind, ingest_and_run_run, Hparse.
  by rewrite rendered_rendered.
Qed.

(** X6. The stages do not see the uploaded bytes: the script parses the
    upload, writes the parsed table back with [to_csv(index=False)]
    under data/raw/uploaded_inventory.csv, replacing what was there, and
    only then calls preprocessing, on that path and on those files. *)
Theorem app_saves_upload_before_stages (session : Session) (content : string)
    (uploaded_df : DataFrame) (w w' : World) (r : Res unit) :
  uploaded_file session = Some content →
  csv_parse content = inr uploaded_df →
  app session w = (r, w') →
  ∃ rest,
    log w' = log w ++
      Called data_preprocessing_main (Some uploaded_file_path)
        (stage_run data_preprocessing_main (Some uploaded_file_path)
           (<[uploaded_file_path := csv_render uploaded_df]> (fs w))).1 :: rest.
Proof.
  intros Hup Hparse E. apply app_effects in E. rewrite Hup, Hparse in E.
  destruct E as (r1 & w1 & Erun & _ & -> & _).
  apply run_backend_pipeline_first in Erun as (_ & rest & -> & _). by exists rest.
Qed.

(** X7. Whatever is uploaded, the script prints nothing and calls the
    stages in the order preprocessing, forecasting, risk scoring,
    recommendation, stopping at the first that raises: that exception is
    the result of the run and the page ends at the upload message. A run
    that returns with an upload has called all four. *)
Theorem app_stage_calls (session : Session) (w w' : World) (r : Res unit) :
  app session w = (r, w') →
  ∃ l, log w' = log w ++ l ∧
    printed_of l = [] ∧
    calls_of l `prefix_of` dashboard_stages ∧
    (∀ s arg e, Called s arg (Some e) ∈ l →
       r = Raised e ∧ last l = Some (Called s arg (Some e)) ∧
       page w' = page w ++ page_top_elements ++ [st_success "✅ File uploaded successfully!"]) ∧
    (r = Ok tt → is_Some (uploaded_file session) → calls_of l = dashboard_stages).
Proof.
  intros E. apply app_effects in E.
  assert (∀ P : Prop, P → ∃ l : list Event,
            log w = log w ++ l ∧ printed_of l = [] ∧ calls_of l `prefix_of` dashboard_stages ∧
            (∀ s arg e, Called s arg (Some e) ∈ l →
               r = Raised e ∧ last l = Some (Called s arg (Some e)) ∧
               page w' = page w ++ page_top_elements
                         ++ [st_success "✅ File uploaded successfully!"]) ∧ P) as Hnone.
  { intros P HP. exists []. rewrite app_nil_r.
    split; [done|]. split; [done|]. split; [apply prefix_nil|]. split; [|done].
    intros s arg e Hin. by apply elem_of_nil in Hin. }
  destruct (uploaded_file session) as [content|].
  2:{ destruct E as (_ & _ & ->).
      destruct (Hnone True I) as (l & ? & ? & ? & ? & _). exists l.
      do 4 (split; [done|]). by intros _ [? ?]. }
  destruct (csv_parse content) as [e|df].
  { destruct E as (-> & _ & ->).
    destruct (Hnone True I) as (l & ? & ? & ? & ? & _). exists l.
    do 4 (split; [done|]). intros Hr. discriminate Hr. }
  clear Hnone. destruct E as (r1 & w1 & Erun & _ & -> & Hraised & Hok).
  pose proof Erun as Hfirst. apply run_backend_pipeline_first in Hfirst as (Hpage & _).
  revert Erun. unfold_driver. intros Hrun.
  repeat run_stage Hrun.
  all: inversion Hrun; subst; clear Hrun; cbn [fs log page] in *.
  all: rewrite <- ?app_assoc; eexists; (split; [reflexivity|]).
  all: cbn [app].
  all: (split; [reflexivity|]).
  all: (split; [unfold dashboard_stages; cbn;
                solve [repeat first [apply prefix_cons | apply prefix_nil]]|]).
  all: split;
    [ intros s arg e' Hin; elem_cases Hin;
      destruct (Hraised _ eq_refl) as [-> ->]; cbn [page];
      (split; [reflexivity|]); (split; [reflexivity|]); by rewrite <- !app_assoc
    | intros Hr _; first [ reflexivity | by specialize (Hok Hr) ] ].
Qed.

(** X8. Nothing the script does after the stage calls writes a file or
    calls a stage: at the end of a run, whatever it rendered and however
    it ended, the files and the trace are as the stage calls left them. *)
Theorem app_rendering_is_read_only (session : Session) (content : string)
    (uploaded_df : DataFrame) (w w' : World) (r : Res unit) :
  uploaded_file session = Some content →
  csv_parse content = inr uploaded_df →
  app session w = (r, w') →
  let staged :=
    (run_backend_pipeline (with_saved_upload uploaded_df (rendered w page_top_elements))).2 in
  fs w' = fs staged ∧ log w' = log staged.
Proof.
  intros Hup Hparse E. apply app_effects in E. rewrite Hup, Hparse in E.
  destruct E as (r1 & w1 & Erun & -> & -> & _). by rewrite Erun.
Qed.
End dashboard_upload.

(** ** dashboard/app.py: what a finished page needed *)

Section dashboard_blocks.
Context {backend : Backend} {pandas : Pandas}.
Import App.

Ltac run_block' :=
  cbv [risk_levels_section forecast_section risk_scoring_section optimization_section
       predictive_section enhanced_section recommendations_section
       pd_read_csv read_file read_csv_text os_path_exists render getitem query
       mbind M_bind mret M_ret mthrow M_throw];
  cbn [fs log page].

Lemma column_index_elem (c : string) (cols : list string) :
  is_Some (column_index c cols) → c ∈ cols.
Proof.
  intros [i Hi]. destruct (decide (c ∈ cols)) as [|Hnot]; [done|].
  apply column_index_None in Hnot. congruence.
Qed.

(** The Risk Levels block returns only on a risk file that parses and
    has the column. *)
Lemma risk_levels_section_returns (w w' : World) :
  risk_levels_section w = (Ok tt, w') →
  ∃ text risk_df, fs w !! risk_file = Some text ∧ csv_parse text = inr risk_df
                  ∧ "Risk_Level" ∈ df_columns risk_df.
Proof.
  run_block'. destruct (fs w !! risk_file) as [text|]; [|done].
  destruct (csv_parse text) as [e|df] eqn:Hparse; cbv beta iota; [done|].
  destruct (column_index "Risk_Level" (df_columns df)) eqn:Hcol; cbv beta iota; [|done].
  intros _. exists text, df. split; [done|]. split; [done|]. apply column_index_elem. eauto.
Qed.

(** The forecast block returns only on a forecast file that parses. *)
Lemma forecast_section_returns (w w' : World) :
  forecast_section w = (Ok tt, w') →
  ∃ text forecast_df, fs w !! forecast_file = Some text ∧ csv_parse text = inr forecast_df.
Proof.
  run_block'. destruct (fs w !! forecast_file) as [text|]; [|done].
  destruct (csv_parse text) as [e|df] eqn:Hparse; cbv beta iota; [done|]. eauto.
Qed.

(** The filters block raises [KeyError] on a recommendations table
    without a Risk_Level or a Predicted_Action column. *)
Lemma enhanced_section_missing_column (session : Session) (rec_df0 : option DataFrame)
    (w : World) (text : string) (rec_df : DataFrame) :
  fs w !! rec_file = Some text →
  csv_parse text = inr rec_df →
  ¬ ("Risk_Level" ∈ df_columns rec_df ∧ "Predicted_Action" ∈ df_columns rec_df) →
  ∃ col w', enhanced_section session rec_df0 w = (Raised (KeyError col), w').
Proof.
  intros Hfile Hparse Hcols. run_block'. rewrite Hfile.
  rewrite bool_decide_true by eauto. cbv beta iota. cbn [fs log page].
  rewrite Hfile, Hparse. cbv beta iota. cbn [fs log page].
  destruct (column_index "Risk_Level" (df_columns rec_df)) as [i|] eqn:Hi; cbv beta iota zeta;
    [|eauto].
  cbn [fs log page].
  destruct (column_index "Predicted_Action" (df_columns rec_df)) as [j|] eqn:Hj;
    cbv beta iota zeta; [|eauto].
  destruct Hcols. split; apply column_index_elem; eauto.
Qed.

Lemma predictive_section_renders (session : Session) (uploaded_df : DataFrame) :
  renders_only (λ _, True) (predictive_section session uploaded_df).
Proof. unfold predictive_section. repeat renders_step. Qed.

Lemma recommendations_section_renders :
  renders_only (λ _, True) recommendations_section.
Proof. unfold recommendations_section, show_recommendations. repeat renders_step. Qed.

(** The blocks after Key Metrics end with the footer when they return. *)
Lemma insights_returns (session : Session) (uploaded_df : DataFrame)
    (rec_df : option DataFrame) (w w' : World) :
  insights session uploaded_df rec_df w = (Ok tt, w') →
  last (page w') = Some footer_element ∧
  ∃ text forecast_df, fs w !! forecast_file = Some text ∧ csv_parse text = inr forecast_df.
Proof.
  unfold insights. rewrite run_bind.
  destruct (predictive_section _ _ _) as [[u|e] w1] eqn:E1; [|done].
  destruct (renders_only_rendered _ _ _ _ _ (predictive_section_renders _ _) E1)
    as (l1 & -> & _).
  rewrite run_bind.
  destruct (forecast_section _) as [[[]|e] w2] eqn:E2; [|done].
  pose proof (forecast_section_returns _ _ E2) as Hforecast. cbn [rendered fs] in Hforecast.
  rewrite run_bind.
  destruct (risk_scoring_section _ _) as [[[]|e] w3]; [|done].
  rewrite run_bind.
  destruct (optimization_section _ _) as [[[]|e] w4]; [|done].
  unfold footer, render. intros [= <-]. cbn [page]. split; [apply last_snoc | done].
Qed.

(** X9. With an upload, the script reaches the footer and returns only
    if, once the stages are done, the risk file, the recommendations
    file and the forecast file all exist and parse, the risk table has
    a Risk_Level column and the recommendations table has Risk_Level and
    Predicted_Action columns. *)
Theorem finished_page_needs_all_files (session : Session) (w w' : World) :
  is_Some (uploaded_file session) →
  app session w = (Ok tt, w') →
  last (page w') = Some footer_element ∧
  (∃ text risk_df, fs w' !! risk_file = Some text ∧ csv_parse text = inr risk_df ∧
                   "Risk_Level" ∈ df_columns risk_df) ∧
  (∃ text rec_df, fs w' !! rec_file = Some text ∧ csv_parse text = inr rec_df ∧
                  "Risk_Level" ∈ df_columns rec_df ∧
                  "Predicted_Action" ∈ df_columns rec_df) ∧
  (∃ text forecast_df, fs w' !! forecast_file = Some text ∧
                       csv_parse text = inr forecast_df).
Proof.
  intros [content Hup] E. apply app_run in E. rewrite Hup in E.
  destruct E as (r1 & w1 & _ & E). destruct r1 as [u|e]; [|by destruct E].
  destruct E as (r2 & w2 & E2 & E). destruct r2 as [rec|e]; [|by destruct E].
  destruct (renders_only_rendered _ _ _ _ _ (insights_plain _ _ _) E) as (l4 & Hw' & _).
  pose proof E as Hins. apply insights_returns in E as (Hlast & Hforecast).
  pose proof E2 as Hres. unfold results in Hres. rewrite run_bind in Hres.
  destruct (risk_levels_section w1) as [[[]|e] wa] eqn:Erisk; [|done].
  destruct (renders_only_rendered _ _ _ _ _ risk_levels_plain Erisk) as (la & -> & _).
  apply risk_levels_section_returns in Erisk.
  rewrite run_bind in Hres.
  destruct (recommendations_section _) as [[rec1|e] wb] eqn:Erec; [|done].
  destruct (renders_only_rendered _ _ _ _ _ recommendations_section_renders Erec)
    as (lb & -> & _).
  destruct (renders_only_rendered _ _ _ _ _ (results_no_metric _) E2) as (l2 & -> & _).
  assert (fs w' = fs w1) as Hfs by (by rewrite Hw').
  rewrite Hfs. cbn [rendered fs] in Hforecast.
  split; [done|]. split; [done|]. split; [|done].
  destruct (fs w1 !! rec_file) as [text|] eqn:Hfile.
  2:{ apply results_unbound in E2 as ->; [|done].
      apply insights_unbound in Hins as [e He]. discriminate He. }
  apply recommendations_section_run in Erec. cbn [rendered fs] in Erec. rewrite Hfile in Erec.
  destruct (csv_parse text) as [e|rec_df] eqn:Hparse; [by destruct Erec|].
  exists text, rec_df. split; [done|]. split; [done|].
  destruct (decide ("Risk_Level" ∈ df_columns rec_df ∧
                    "Predicted_Action" ∈ df_columns rec_df)) as [|Hnot]; [done|].
  destruct (enhanced_section_missing_column session rec1 (rendered (rendered w1 la) lb)
              text rec_df Hfile Hparse Hnot) as (col & wc & Henh).
  rewrite Henh in Hres. discriminate Hres.
Qed.
End dashboard_blocks.

(** ** dashboard/app.py: the tables behind two of the charts *)

(** A query returns its expression applied to its input, or raises. *)
Lemma renders_only_query_bind {pandas : Pandas} (P : Widget → Prop) {B}
    (q : Query) (d : Data) (f : Data → M B) :
  renders_only P (f (Derived q d)) → renders_only P (query q d ≫= f).
Proof.
  intros Hf w r w'. rewrite run_bind. unfold query.
  destruct (query_raises q d) as [e|].
  - intros [= <- <-]. do 2 (split; [done|]). exists []. by rewrite app_nil_r.
  - apply Hf.
Qed.

Lemma unique_from_elem (seen l : list Cell) (x : Cell) :
  x ∈ unique_from seen l ↔ x ∈ l ∧ x ∉ seen.
Proof.
  revert seen. induction l as [|y l IH]; intros seen; cbn.
  - rewrite elem_of_nil. tauto.
  - case_bool_decide as Hy.
    + rewrite IH, elem_of_cons. split; [tauto|].
      intros [[->|Hin] Hnot]; [done|tauto].
    + rewrite !elem_of_cons, IH, not_elem_of_cons.
      destruct (decide (x = y)) as [->|Hne]; [tauto|]. tauto.
Qed.

Lemma unique_elem (l : list Cell) (x : Cell) : x ∈ unique l ↔ x ∈ l.
Proof.
  unfold unique. rewrite unique_from_elem. split; [tauto|].
  intros Hin. split; [done|]. apply not_elem_of_nil.
Qed.

Lemma unique_from_NoDup (seen l : list Cell) : NoDup (unique_from seen l).
Proof.
  revert seen. induction l as [|y l IH]; intros seen; cbn; [constructor|].
  case_bool_decide as Hy; [apply IH|].
  constructor; [|apply IH]. rewrite unique_from_elem, not_elem_of_cons. tauto.
Qed.

(** Keeping the rows whose value is among all the values of the column
    keeps every row. *)
Lemma filter_isin_unique (i : nat) (df : DataFrame) :
  filter_isin i (unique (column_cells i df)) df = df.
Proof.
  destruct df as [cols rows]. unfold filter_isin, column_cells. cbn. f_equal.
  assert (∀ seen : list Cell, (∀ r, r ∈ rows → nth i r NaN ∈ seen) →
            List.filter (fun r => bool_decide (nth i r NaN ∈ seen)) rows = rows) as Hall.
  { intros seen. induction rows as [|r rows IH]; intros Hin; cbn; [done|].
    rewrite bool_decide_true by (apply Hin; left).
    f_equal. apply IH. intros r' Hr'. apply Hin. by right. }
  apply Hall. intros r Hr. apply unique_elem.
  apply list_elem_of_In, in_map_iff. exists r. by rewrite <- list_elem_of_In.
Qed.

Section dashboard_tables.
Context {backend : Backend} {pandas : Pandas}.
Import App.

Ltac renders_step' :=
  first [ apply renders_only_query_bind | renders_step ].

(** X10. The Expiry Prediction Table overwrites the Risk_Level column of
    [uploaded_df] in place, so the box plot of the Risk Scoring block,
    which comes later, is drawn from the overwritten table: its colour
    groups are the coloured squares, or missing for any level other than
    High, Medium and Low, never the levels as uploaded. It is the only
    plotly chart of these blocks, and it is drawn only when the upload
    has a Risk_Score column. *)
Theorem box_plot_uses_overwritten_levels (session : Session) (uploaded_df : DataFrame)
    (rec_df : option DataFrame) (w w' : World) (r : Res unit) :
  is_Some (uploaded_file session) →
  insights session uploaded_df rec_df w = (r, w') →
  ∃ l, page w' = page w ++ l ∧
    (∀ d, st_plotly_chart d ∈ l →
       d = Derived (px_box "Category" "Risk_Score" "Risk_Level")
             (Frame (predictive_table uploaded_df)) ∧
       has_column "Risk_Score" uploaded_df = true) ∧
    (∀ i, column_index "Risk_Level" (df_columns uploaded_df) = Some i →
       df_rows (predictive_table uploaded_df) =
         map (fun row => alter risk_level_emoji i row) (df_rows uploaded_df) ∧
       ∀ row c, row ∈ df_rows (predictive_table uploaded_df) → row !! i = Some c →
         c ∈ [Val "🟥"; Val "🟧"; Val "🟩"; NaN]).
Proof.
  intros Hup. unfold insights. rewrite run_bind, predictive_section_run by done.
  set (P := fun x => match x with
                     | st_plotly_chart d =>
                         d = Derived (px_box "Category" "Risk_Score" "Risk_Level")
                               (Frame (predictive_table uploaded_df)) ∧
                         has_column "Risk_Score" uploaded_df = true
                     | _ => True
                     end).
  match goal with |- ?m ?w0 = _ → _ => assert (renders_only P m) as Hrest end.
  { unfold forecast_section, risk_scoring_section, optimization_section, footer, head_data.
    assert (has_column "Risk_Score" (predictive_table uploaded_df)
            = has_column "Risk_Score" uploaded_df) as Hcols.
    { unfold predictive_table, has_column.
      by destruct (column_index "Risk_Level" (df_columns uploaded_df)). }
    rewrite Hcols.
    destruct (has_column "Risk_Score" uploaded_df) eqn:Hscore.
    all: repeat renders_step'. }
  intros E. destruct (renders_only_rendered _ _ _ _ _ Hrest E) as (l & -> & Hl).
  eexists. split; [cbn [rendered page]; by rewrite <- app_assoc|]. split.
  - intros d Hin. apply elem_of_app in Hin as [Hin|Hin]; [elem_cases Hin|].
    exact (proj1 (Forall_forall P l) Hl _ Hin).
  - intros i Hi. unfold predictive_table. rewrite Hi. unfold map_column. cbn [df_rows].
    split; [reflexivity|]. intros row c Hrow Hc.
    apply list_elem_of_In, in_map_iff in Hrow as (row0 & <- & _).
    rewrite list_lookup_alter_eq in Hc.
    destruct (row0 !! i) as [c0|]; [|done]. injection Hc as <-.
    unfold risk_level_emoji. repeat case_match; find_elem.
Qed.
End dashboard_tables.

Section dashboard_filters.
Context {backend : Backend} {pandas : Pandas}.
Import App.

Lemma run_render (x : Widget) (w : World) : render x w = (Ok tt, rendered w [x]).
Proof. reflexivity. Qed.

Lemma run_pd_read_csv (path text : string) (df : DataFrame) (w : World) :
  fs w !! path = Some text → csv_parse text = inr df → pd_read_csv path w = (Ok df, w).
Proof.
  intros Hfile Hparse. unfold pd_read_csv, read_file, read_csv_text.
  rewrite run_bind, Hfile, Hparse. reflexivity.
Qed.

Lemma run_getitem (df : DataFrame) (col : string) (i : nat) (w : World) :
  column_index col (df_columns df) = Some i → getitem df col w = (Ok i, w).
Proof. intros Hi. unfold getitem. by rewrite Hi. Qed.

(** X11. The sidebar offers, for each of the two filters, the distinct
    values of its column of the recommendations table, each once, and
    all of them selected by default. With those defaults left as they
    are the filtered table is the whole recommendations table: the block
    shows its first 20 rows. *)
Theorem default_filters_keep_every_row (session : Session) (rec_df0 : option DataFrame)
    (w w' : World) (r : Res (option DataFrame)) (text : string) (rec_df : DataFrame)
    (i j : nat) :
  fs w !! rec_file = Some text →
  csv_parse text = inr rec_df →
  column_index "Risk_Level" (df_columns rec_df) = Some i →
  column_index "Predicted_Action" (df_columns rec_df) = Some j →
  (∀ options, select_risk_levels session options = options) →
  (∀ options, select_actions session options = options) →
  enhanced_section session rec_df0 w = (r, w') →
  ∃ levels actions rest,
    page w' = page w ++
      [st_subheader "📊 Enhanced Insights and Filters";
       st_sidebar_header "Filter Options";
       st_sidebar_multiselect "Select Risk Levels" levels levels;
       st_sidebar_multiselect "Select Actions" actions actions;
       st_dataframe (Frame (head 20 rec_df))] ++ rest ∧
    NoDup levels ∧ (∀ c, c ∈ levels ↔ c ∈ column_cells i rec_df) ∧
    NoDup actions ∧ (∀ c, c ∈ actions ↔ c ∈ column_cells j rec_df).
Proof.
  intros Hfile Hparse Hi Hj Hlevels Hactions.
  unfold enhanced_section.
  rewrite run_bind, run_render. cbv beta iota.
  rewrite run_bind. unfold os_path_exists at 1. cbv beta iota. cbn [rendered fs].
  rewrite Hfile, bool_decide_true by eauto.
  rewrite run_bind, (run_pd_read_csv _ text rec_df) by (cbn [rendered fs]; done).
  cbv beta iota.
  rewrite run_bind, run_render. cbv beta iota.
  rewrite run_bind, (run_getitem _ _ _ _ Hi). cbv beta iota zeta.
  rewrite run_bind, run_render. cbv beta iota.
  rewrite run_bind, (run_getitem _ _ _ _ Hi). cbv beta iota zeta.
  rewrite run_bind, (run_getitem _ _ _ _ Hj). cbv beta iota zeta.
  rewrite run_bind, run_render. cbv beta iota.
  rewrite Hlevels, Hactions, filter_isin_unique.
  rewrite run_bind, (run_getitem _ _ _ _ Hj). cbv beta iota zeta.
  rewrite filter_isin_unique.
  rewrite run_bind, run_render. cbv beta iota.
  rewrite !rendered_rendered. cbn [app].
  match goal with |- ?m ?w0 = _ → _ => assert (renders_only (λ _, True) m) as Hrest end.
  { repeat renders_step. }
  intros E. destruct (renders_only_rendered _ _ _ _ _ Hrest E) as (rest & -> & _).
  exists (unique (column_cells i rec_df)), (unique (column_cells j rec_df)), rest.
  split; [cbn [rendered page]; by rewrite <- app_assoc|].
  split; [apply unique_from_NoDup|]. split; [apply unique_elem|].
  split; [apply unique_from_NoDup|]. apply unique_elem.
Qed.
End dashboard_filters.

(** ** dashboard/app.py: the binding of [rec_df] *)

Section dashboard_binding.
Context {backend : Backend} {pandas : Pandas}.
Import App.

(** Every value the statement [m] can return satisfies [Q]. *)
Lemma returns_bind {A B} (Q : B → Prop) (m : M A) (f : A → M B) :
  (∀ a w a' w', f a w = (Ok a', w') → Q a') →
  ∀ w b w', (m ≫= f) w = (Ok b, w') → Q b.
Proof.
  intros Hf w b w'. rewrite run_bind. destruct (m w) as [[a|e] w1]; [apply Hf | done].
Qed.

(** The filters block, when the file is there and parses, rebinds
    [rec_df] to the table it has just read. *)
Lemma enhanced_section_rebinds (session : Session) (rec_df0 rec : option DataFrame)
    (w w' : World) (text : string) (rec_df : DataFrame) :
  fs w !! rec_file = Some text →
  csv_parse text = inr rec_df →
  enhanced_section session rec_df0 w = (Ok rec, w') →
  rec = Some rec_df.
Proof.
  intros Hfile Hparse. unfold enhanced_section.
  rewrite run_bind, run_render. cbv beta iota.
  rewrite run_bind. unfold os_path_exists at 1. cbv beta iota. cbn [rendered fs].
  rewrite Hfile, bool_decide_true by eauto.
  rewrite run_bind, (run_pd_read_csv _ text rec_df) by (cbn [rendered fs]; done).
  cbv beta iota.
  generalize (rendered w [st_subheader "📊 Enhanced Insights and Filters"]).
  intros w0. revert w0 rec w'.
  repeat first
    [ apply (returns_bind (λ b, b = Some rec_df)); intros ?
    | match goal with
      | |- ∀ w b w', (if ?c then _ else _) w = _ → _ => destruct c
      end
    | progress cbv zeta ].
  all: intros w0 rec w'; cbv [mret M_ret]; by intros [= <- _].
Qed.

(** X12. When the blocks up to the filters return, [rec_df] is bound
    exactly when the recommendations file exists, and then to the table
    parsed from it: the file is read twice, lines 108 and 144, with
    nothing written in between, and the second read is the one the last
    block of the page uses. *)
Theorem results_binds_rec_df (session : Session) (w w' : World)
    (rec : option DataFrame) :
  results session w = (Ok rec, w') →
  match fs w !! rec_file with
  | None => rec = None
  | Some text => ∃ rec_df, csv_parse text = inr rec_df ∧ rec = Some rec_df
  end.
Proof.
  intros E. destruct (fs w !! rec_file) as [text|] eqn:Hfile.
  2:{ by apply results_unbound in E. }
  unfold results in E. rewrite run_bind in E.
  destruct (risk_levels_section w) as [[[]|e] w1] eqn:Erisk; [|done].
  destruct (renders_only_rendered _ _ _ _ _ risk_levels_plain Erisk) as (l1 & -> & _).
  rewrite run_bind in E.
  destruct (recommendations_section _) as [[rec1|e] w2] eqn:Erec; [|done].
  destruct (renders_only_rendered _ _ _ _ _ recommendations_section_renders Erec)
    as (l2 & -> & _).
  apply recommendations_section_run in Erec. cbn [rendered fs] in Erec.
  rewrite Hfile in Erec.
  destruct (csv_parse text) as [e|rec_df] eqn:Hparse; [by destruct Erec|].
  exists rec_df. split; [done|].
  by apply (enhanced_section_rebinds session rec1 rec _ _ text rec_df) in E.
Qed.
End dashboard_binding.

(** ** The further properties on concrete runs *)

Section further_concrete_runs.
Import Demo.

(** A skipped forecast step, and the completed line all the same. *)
Lemma run_pipeline_completed_line_witness :
  let stages := raising forecast_main ConvergenceError in
  let out := RunPipeline.run_pipeline (backend:=stages) "upload.csv" disk in
  out = (Ok tt, out.2) ∧
  Printed (RunPipeline.skipped ConvergenceError) ∈ log out.2 ∧
  last (log out.2) = Some (Printed RunPipeline.completed).
Proof.
  intros stages out.
  assert (out = (Ok tt, out.2)) as Hout by (vm_compute; reflexivity).
  split; [exact Hout|]. split; [vm_compute; find_elem|].
  destruct (run_pipeline_completed_line (backend:=stages) "upload.csv" disk out.2 (Ok tt) Hout)
    as (_ & l & Hlog & _ & Hlast & _).
  change (log disk) with (@nil Event) in Hlog. cbn [app] in Hlog. rewrite Hlog.
  by apply Hlast.
Defined.

(** Started with the program name only. *)
Lemma main_by_arguments_witness :
  (List.length ["run_pipeline.py"] < 2)%nat ∧
  RunPipeline.main (backend:=idle) ["run_pipeline.py"] disk =
    (Ok tt, {| fs := fs disk; log := log disk ++ [Printed RunPipeline.usage];
               page := page disk |}).
Proof.
  assert (List.length ["run_pipeline.py"] < 2)%nat as Hlen by (cbn; lia).
  split; [exact Hlen|].
  by apply (proj1 (main_by_arguments (backend:=idle) ["run_pipeline.py"] disk)).
Defined.

(** The page before anything is uploaded. *)
Lemma app_without_upload_witness :
  uploaded_file no_upload = None ∧
  App.app (backend:=idle) (pandas:=plain_csv) no_upload empty_world =
    (Ok tt, rendered empty_world
              (page_top_elements ++ [st_info "Please upload a CSV file to get started."])).
Proof.
  split; [reflexivity|].
  by apply (app_without_upload (backend:=idle) (pandas:=plain_csv) no_upload empty_world).
Defined.

(** An empty file is uploaded. *)
Lemma app_unparsable_upload_witness :
  uploaded_file (upload "") = Some "" ∧
  csv_parse (Pandas:=plain_csv) "" = inl EmptyDataError ∧
  App.app (backend:=idle) (pandas:=plain_csv) (upload "") empty_world =
    (Raised EmptyDataError,
     rendered empty_world (page_top_elements ++ [st_success "✅ File uploaded successfully!"])).
Proof.
  split; [reflexivity|]. split; [reflexivity|].
  by apply (app_unparsable_upload (backend:=idle) (pandas:=plain_csv) (upload "") ""
              EmptyDataError empty_world).
Defined.

(** The first thing a run with an upload does to the stages. *)
Lemma app_saves_upload_before_stages_witness :
  let stages := writing (Some forecast_csv) (Some risk_csv) (Some recommendations_csv) in
  let out := App.app (backend:=stages) (pandas:=plain_csv) (upload inventory_csv)
               empty_world in
  csv_parse (Pandas:=plain_csv) inventory_csv = inr inventory_df ∧
  ∃ rest, log out.2 =
            Called data_preprocessing_main (Some App.uploaded_file_path) None :: rest.
Proof.
  intros stages out.
  assert (csv_parse (Pandas:=plain_csv) inventory_csv = inr inventory_df) as Hparse
    by reflexivity.
  split; [exact Hparse|].
  destruct (app_saves_upload_before_stages (backend:=stages) (pandas:=plain_csv)
              (upload inventory_csv) inventory_csv inventory_df empty_world out.2 out.1
              eq_refl Hparse) as (rest & Hlog); [vm_compute; reflexivity|].
  exists rest. exact Hlog.
Defined.

(** A risk scorer that raises ends the dashboard's run. *)
Lemma app_stage_calls_witness :
  let stages := raising risk_main ConvergenceError in
  let out := App.app (backend:=stages) (pandas:=plain_csv) (upload inventory_csv)
               empty_world in
  Called risk_main None (Some ConvergenceError) ∈ log out.2 ∧
  out.1 = Raised ConvergenceError ∧
  page out.2 = page_top_elements ++ [st_success "✅ File uploaded successfully!"].
Proof.
  intros stages out.
  assert (Called risk_main None (Some ConvergenceError) ∈ log out.2) as Hin
    by (vm_compute; find_elem).
  split; [exact Hin|].
  destruct (app_stage_calls (backend:=stages) (pandas:=plain_csv) (upload inventory_csv)
              empty_world out.2 out.1) as (l & Hlog & _ & _ & Hraised & _);
    [vm_compute; reflexivity|].
  change (log empty_world) with (@nil Event) in Hlog. cbn [app] in Hlog.
  rewrite Hlog in Hin. destruct (Hraised _ _ _ Hin) as (Hr & _ & Hpage).
  split; [exact Hr|]. exact Hpage.
Defined.

(** The files at the end of a whole run. *)
Lemma app_rendering_is_read_only_witness :
  let stages := writing (Some forecast_csv) (Some risk_csv) (Some recommendations_csv) in
  let out := App.app (backend:=stages) (pandas:=plain_csv) (upload inventory_csv)
               empty_world in
  let staged :=
    (App.run_backend_pipeline (backend:=stages)
       (with_saved_upload (pandas:=plain_csv) inventory_df
          (rendered empty_world page_top_elements))).2 in
  out = (Ok tt, out.2) ∧ fs out.2 = fs staged ∧ log out.2 = log staged.
Proof.
  intros stages out staged. split; [vm_compute; reflexivity|].
  apply (app_rendering_is_read_only (backend:=stages) (pandas:=plain_csv)
           (upload inventory_csv) inventory_csv inventory_df empty_world out.2 out.1);
    [reflexivity | reflexivity | vm_compute; reflexivity].
Defined.

(** A run that reaches the footer. *)
Lemma finished_page_needs_all_files_witness :
  let stages := writing (Some forecast_csv) (Some risk_csv) (Some recommendations_csv) in
  let out := App.app (backend:=stages) (pandas:=plain_csv) (upload inventory_csv)
               empty_world in
  out = (Ok tt, out.2) ∧
  last (page out.2) = Some footer_element ∧
  is_Some (fs out.2 !! App.risk_file) ∧
  is_Some (fs out.2 !! App.rec_file) ∧
  is_Some (fs out.2 !! App.forecast_file).
Proof.
  intros stages out.
  assert (out = (Ok tt, out.2)) as Hout by (vm_compute; reflexivity).
  split; [exact Hout|].
  destruct (finished_page_needs_all_files (backend:=stages) (pandas:=plain_csv)
              (upload inventory_csv) empty_world out.2)
    as (Hlast & (t1 & ? & H1 & _) & (t2 & ? & H2 & _) & (t3 & ? & H3 & _));
    [by eexists | exact Hout |].
  split; [exact Hlast|]. rewrite H1, H2, H3. by repeat split.
Defined.

(** An upload with levels: the box plot gets the squares. *)
Lemma box_plot_uses_overwritten_levels_witness :
  let out := App.insights (pandas:=plain_csv) (upload scored_csv) scored_df None
               staged_disk in
  is_Some (uploaded_file (upload scored_csv)) ∧
  st_plotly_chart
    (Derived (px_box "Category" "Risk_Score" "Risk_Level")
       (Frame {| df_columns := ["Product_Name"; "Category"; "Risk_Score"; "Risk_Level"];
                 df_rows := [[Val "Milk"; Val "Dairy"; Val "0.9"; Val "🟥"];
                             [Val "Rice"; Val "Grains"; Val "0.5"; NaN]] |}))
    ∈ page out.2.
Proof.
  intros out.
  assert (is_Some (uploaded_file (upload scored_csv))) as Hup by (by eexists).
  split; [exact Hup|].
  destruct (box_plot_uses_overwritten_levels (pandas:=plain_csv) (upload scored_csv)
              scored_df None staged_disk out.2 out.1 Hup)
    as (l & Hpage & Hbox & _); [vm_compute; reflexivity|].
  assert (∃ d, st_plotly_chart d ∈ l) as (d & Hd).
  { change (page staged_disk) with (@nil Widget) in Hpage. cbn [app] in Hpage.
    rewrite <- Hpage. vm_compute. eexists. find_elem. }
  destruct (Hbox d Hd) as [-> _].
  rewrite Hpage. apply elem_of_app. right. exact Hd.
Defined.

(** The filters left at their defaults. *)
Lemma default_filters_keep_every_row_witness :
  let out := App.enhanced_section (pandas:=plain_csv) (upload inventory_csv) None
               staged_disk in
  fs staged_disk !! App.rec_file = Some recommendations_csv ∧
  csv_parse (Pandas:=plain_csv) recommendations_csv = inr recommendations_df ∧
  st_dataframe (Frame (head 20 recommendations_df)) ∈ page out.2.
Proof.
  intros out.
  assert (fs staged_disk !! App.rec_file = Some recommendations_csv) as Hfile
    by (vm_compute; reflexivity).
  assert (csv_parse (Pandas:=plain_csv) recommendations_csv = inr recommendations_df)
    as Hparse by reflexivity.
  split; [exact Hfile|]. split; [exact Hparse|].
  destruct (default_filters_keep_every_row (pandas:=plain_csv) (upload inventory_csv) None
              staged_disk out.2 out.1 recommendations_csv recommendations_df 3 4 Hfile Hparse)
    as (levels & actions & rest & Hpage & _);
    [reflexivity | reflexivity | reflexivity | reflexivity | vm_compute; reflexivity |].
  rewrite Hpage. change (page staged_disk) with (@nil Widget). cbn [app]. find_elem.
Defined.

(** The blocks up to the filters on the three files. *)
Lemma results_binds_rec_df_witness :
  let out := App.results (pandas:=plain_csv) (upload inventory_csv) staged_disk in
  out = (Ok (Some recommendations_df), out.2) ∧
  ∃ rec_df, csv_parse (Pandas:=plain_csv) recommendations_csv = inr rec_df ∧
            Some recommendations_df = Some rec_df.
Proof.
  intros out.
  assert (out = (Ok (Some recommendations_df), out.2)) as Hout by (vm_compute; reflexivity).
  split; [exact Hout|].
  pose proof (results_binds_rec_df (pandas:=plain_csv) (upload inventory_csv) staged_disk
                out.2 (Some recommendations_df) Hout) as Hbind.
  assert (fs staged_disk !! App.rec_file = Some recommendations_csv) as Hfile
    by (vm_compute; reflexivity).
  rewrite Hfile in Hbind. exact Hbind.
Defined.
End further_concrete_runs.
